(** * Cart, order assembly and payment reconciliation of the agrilink back end

    Shallow embedding of [cart/cart.py], [cart/serializers.py],
    [cart/views.py], [orders/views.py], [orders/serializers.py],
    [orders/models.py] and [payment/views.py]. *)

From Stdlib Require Import ZArith QArith List String Bool Lia.
Import ListNotations.
Open Scope Z_scope.

(* ------------------------------------------------------------------ *)
(** ** Python values and [decimal.Decimal] *)

(** A finite [Decimal] as Python stores it: coefficient and number of
    fractional digits (the negated exponent), value [dm / 10^de]. *)
Record dec := Dec { dm : Z; de : nat }.

Definition pow10 (e : nat) : Z := 10 ^ Z.of_nat e.

(** The numeric value of a decimal; Python's [==], [<] and [<=] on
    [Decimal] compare these values. *)
Definition dec_val (d : dec) : Q := Qmake (dm d) (Z.to_pos (pow10 (de d))).

Definition dec_of_int (z : Z) : dec := Dec z 0.

(** [Decimal.__add__]: the result carries the smaller exponent. *)
Definition dec_add (a b : dec) : dec :=
  let e := Nat.max (de a) (de b) in
  Dec (dm a * pow10 (e - de a) + dm b * pow10 (e - de b)) e.

(** [Decimal.__mul__]: exponents add. *)
Definition dec_mul (a b : dec) : dec := Dec (dm a * dm b) (de a + de b).

(** [Decimal * int] *)
Definition dec_mul_int (a : dec) (n : Z) : dec := dec_mul a (dec_of_int n).

Definition dec_ltb (a b : dec) : bool := negb (Qle_bool (dec_val b) (dec_val a)).
Definition dec_leb (a b : dec) : bool := Qle_bool (dec_val a) (dec_val b).

(** [Decimal('0.00')] *)
Definition dec_zero2 : dec := Dec 0 2.

(** Values found in the session payload (client-controllable JSON):
    an [int], a decimal literal string (coefficient and fractional digits,
    e.g. ["10.00"] is [PNumStr 1000 2], ["3"] is [PNumStr 3 0]), any other
    string (one [Decimal] and [int] reject, or ["NaN"], whose comparison
    with [0] raises), or [None]. *)
Inductive pyval :=
| PInt (z : Z)
| PNumStr (m : Z) (e : nat)
| PText (s : string)
| PNone.

(** [int(v)]; [None] stands for the raised [ValueError]/[TypeError]. *)
Definition py_int (v : pyval) : option Z :=
  match v with
  | PInt z => Some z
  | PNumStr m O => Some m
  | PNumStr _ (S _) => None
  | PText _ => None
  | PNone => None
  end.

(** [Decimal(v)]; [None] stands for [InvalidOperation]/[TypeError]. *)
Definition py_decimal (v : pyval) : option dec :=
  match v with
  | PInt z => Some (dec_of_int z)
  | PNumStr m e => Some (Dec m e)
  | PText _ => None
  | PNone => None
  end.

(* ------------------------------------------------------------------ *)
(** ** Python dicts as insertion-ordered association lists *)

Section Dict.
Context {V : Type}.

Fixpoint dict_get (k : Z) (d : list (Z * V)) : option V :=
  match d with
  | [] => None
  | (k', v) :: d' => if Z.eqb k k' then Some v else dict_get k d'
  end.

(** [d[k] = v]: an existing key keeps its position, a new key is appended. *)
Fixpoint dict_set (k : Z) (v : V) (d : list (Z * V)) : list (Z * V) :=
  match d with
  | [] => [(k, v)]
  | (k', v') :: d' =>
      if Z.eqb k k' then (k', v) :: d' else (k', v') :: dict_set k v d'
  end.

(** [del d[k]] *)
Fixpoint dict_del (k : Z) (d : list (Z * V)) : list (Z * V) :=
  match d with
  | [] => []
  | (k', v') :: d' => if Z.eqb k k' then d' else (k', v') :: dict_del k d'
  end.

Definition dict_mem (k : Z) (d : list (Z * V)) : bool :=
  match dict_get k d with Some _ => true | None => false end.

End Dict.

(* ------------------------------------------------------------------ *)
(** ** Catalog: [products/models.py] *)

Record Product := mkProduct {
  product_id : Z;
  product_price : dec;
  stock_quantity : Z;
  is_available : bool
}.

(** The product table; [Product.objects.filter(id__in=...)] /
    [get_object_or_404(Product, id=...)] look a product up by id. *)
Definition catalog := list Product.

Fixpoint find_product (id : Z) (cat : catalog) : option Product :=
  match cat with
  | [] => None
  | p :: cat' => if Z.eqb (product_id p) id then Some p else find_product id cat'
  end.

(* ------------------------------------------------------------------ *)
(** ** The cart: [cart/cart.py] *)

(** A raw session entry [{'quantity': ..., 'price': ...}]; an absent key
    is [None]. *)
Record raw_item := RawItem { raw_quantity : option pyval; raw_price : option pyval }.

(** The payload under [settings.CART_SESSION_ID], keyed by [str(product.id)]
    (identified here with the id). *)
Definition session_cart := list (Z * raw_item).

(** A cleaned line [{'quantity': int, 'price': str(Decimal)}]; the price
    string is kept as the decimal it prints ([Decimal(str(d))] is [d]). *)
Record line := Line { quantity : Z; price : dec }.

Definition cart := list (Z * line).

(** One iteration of the loop of [Cart._validate_cart]: an entry whose
    conversion raises or which has a negative quantity or price is logged
    and dropped. *)
Definition validate_entry (cleaned : cart) (entry : Z * raw_item) : cart :=
  let (pid, item) := entry in
  let q := py_int (match raw_quantity item with Some v => v | None => PInt 0 end) in
  let p := py_decimal (match raw_price item with Some v => v | None => PNone end) in
  match q, p with
  | Some quantity, Some price =>
      if (quantity <? 0) || dec_ltb price (dec_of_int 0) then cleaned
      else dict_set pid (Line quantity price) cleaned
  | _, _ => cleaned
  end.

(** [Cart._validate_cart] *)
Definition validate_cart (raw : session_cart) : cart :=
  fold_left validate_entry raw [].

(** [Cart.add]; [None] is the [ValueError] raised for a price [<= 0].
    The line dict is mutated in place, so only its ['quantity'] changes;
    [save] rewrites every price as [str(price)], which keeps the decimal. *)
Definition cart_add (c : cart) (product : Product) (qty : Z) (update_quantity : bool)
  : option cart :=
  let pid := product_id product in
  let p := product_price product in
  if dec_leb p (dec_of_int 0) then None
  else
    let c1 := if dict_mem pid c then c else dict_set pid (Line 0 p) c in
    match dict_get pid c1 with
    | Some l =>
        let q := if update_quantity then Z.max 0 qty else Z.max 0 (quantity l + qty) in
        Some (dict_set pid (Line q (price l)) c1)
    | None => None
    end.

(** [Cart.remove] *)
Definition cart_remove (c : cart) (pid : Z) : cart :=
  if dict_mem pid c then dict_del pid c else c.

(** An element yielded by [Cart.__iter__]: the copied line dict with
    ['product'] (the catalog row, [None] when it is gone) and
    ['total_price'] added. *)
Record cart_item := CartItem {
  item_product : option Product;
  item_quantity : Z;
  item_price : dec;
  item_total_price : dec
}.

(** The body of the loop of [Cart.__iter__] for one line. *)
Definition iter_line (products : catalog) (pid : Z) (l : line) : cart_item :=
  let prod := find_product pid products in
  let p := price l in
  if dec_leb p (dec_of_int 0) then CartItem prod (quantity l) p dec_zero2
  else if quantity l <=? 0 then CartItem prod (quantity l) p dec_zero2
  else CartItem prod (quantity l) p (dec_mul_int p (quantity l)).

(** [Cart.__iter__], against the product table [products]. *)
Definition cart_iter (c : cart) (products : catalog) : list cart_item :=
  map (fun e => iter_line products (fst e) (snd e)) c.

(** [Cart.__len__]: the sum of the quantities. *)
Definition cart_len (c : cart) : Z :=
  fold_left (fun acc e => acc + quantity (snd e)) c 0.

(** [Cart.get_total_price] *)
Definition get_total_price (c : cart) : dec :=
  fold_left (fun acc e => dec_add acc (dec_mul_int (price (snd e)) (quantity (snd e))))
    c (dec_of_int 0).

(** The sum of the ['total_price'] of a sequence of yielded items. *)
Definition sum_line_totals (items : list cart_item) : dec :=
  fold_left (fun acc it => dec_add acc (item_total_price it)) items (dec_of_int 0).

(** [Cart.save]: the cleaned cart written back as the session payload. *)
Definition cart_to_session (c : cart) : session_cart :=
  map (fun e => (fst e, RawItem (Some (PInt (quantity (snd e))))
                                (Some (PNumStr (dm (price (snd e))) (de (price (snd e)))))))
      c.

(** [Cart.clear] *)
Definition cart_clear (raw : session_cart) : session_cart := [].

(* ------------------------------------------------------------------ *)
(** ** [CartAddProductView.post] *)

(** The request body; an absent key is [None]. *)
Record add_request := AddRequest { req_quantity : option Z; req_override : option bool }.

(** [CartAddProductSerializer] field validation ([min_value=1],
    [default=1]) followed by [validate_quantity]. *)
Definition validate_add_request (product : Product) (req : add_request)
  : option (Z * bool) :=
  let qty := match req_quantity req with Some q => q | None => 1 end in
  let override := match req_override req with Some b => b | None => false end in
  if qty <? 1 then None
  else if negb (is_available product) then None
  else if stock_quantity product <? qty then None
  else Some (qty, override).

(** The view: status code and session payload after the request.
    [Cart(request)] only writes the session when it holds no cart, and
    then writes an empty one, which is the same payload here. *)
Definition cart_add_view (raw : session_cart) (products : catalog) (pid : Z)
  (req : add_request) : Z * session_cart :=
  let c := validate_cart raw in
  match find_product pid products with
  | None => (404, raw)
  | Some product =>
      match validate_add_request product req with
      | None => (400, raw)
      | Some (qty, override) =>
          let current := match dict_get (product_id product) c with
                         | Some l => quantity l | None => 0 end in
          let new_quantity := if override then qty else current + qty in
          if stock_quantity product <? new_quantity then (400, raw)
          else match cart_add c product qty override with
               | Some c' => (200, cart_to_session c')
               | None => (500, raw)
               end
      end
  end.

(* ------------------------------------------------------------------ *)
(** ** Orders and payments: [orders/models.py], [payment/models.py] *)

Record Order := mkOrder {
  order_id : Z;
  order_user : Z;
  is_paid : bool;
  total_price : dec;
  status : string
}.

Record OrderItem := mkOrderItem {
  oi_order : Z;
  oi_product : Z;
  oi_quantity : Z;
  oi_price : dec
}.

(** Modelled from the spec: the [Payment] model of [payment/models.py]
    (imported by [payment/views.py], not among the sources), with the
    spec's fields [orderId], [externalSessionId] (the column the views
    call [stripe_checkout_id]), [amount] and [isSuccessful]. *)
Record Payment := mkPayment {
  pay_order : Z;
  stripe_checkout_id : string;
  amount : dec;
  is_successful : bool
}.

Record db := mkDb {
  orders : list Order;
  order_items : list OrderItem;
  payments : list Payment;
  next_order_id : Z
}.

(** Attribute values that matter here. *)
Inductive attrval := ABool (b : bool) | AStr (s : string) | AOther.

(** A loaded model instance: its row plus attributes set on the Python
    object that are not model fields ([save] does not write those). *)
Record order_inst := OrderInst { order_row : Order; order_extra : list (string * attrval) }.
Record payment_inst := PaymentInst { payment_row : Payment; payment_extra : list (string * attrval) }.

Fixpoint extra_get (name : string) (ex : list (string * attrval)) : option attrval :=
  match ex with
  | [] => None
  | (n, v) :: ex' => if String.eqb n name then Some v else extra_get name ex'
  end.

Definition order_fields : list string :=
  ["id"; "user"; "created_at"; "updated_at"; "is_paid"; "total_price"; "status"]%string.

(** [getattr(order, name)]; [None] is the [AttributeError]. *)
Definition order_getattr (o : order_inst) (name : string) : option attrval :=
  if String.eqb name "is_paid" then Some (ABool (is_paid (order_row o)))
  else if existsb (String.eqb name) order_fields then Some AOther
  else extra_get name (order_extra o).

(** [setattr(order, name, v)] *)
Definition order_setattr (o : order_inst) (name : string) (v : attrval) : order_inst :=
  match String.eqb name "is_paid", v with
  | true, ABool b =>
      let r := order_row o in
      OrderInst (mkOrder (order_id r) (order_user r) b (total_price r) (status r))
                (order_extra o)
  | _, _ => OrderInst (order_row o) ((name, v) :: order_extra o)
  end.

(** [setattr(payment, name, v)] *)
Definition payment_setattr (p : payment_inst) (name : string) (v : attrval) : payment_inst :=
  match String.eqb name "is_successful", v with
  | true, ABool b =>
      let r := payment_row p in
      PaymentInst (mkPayment (pay_order r) (stripe_checkout_id r) (amount r) b)
                  (payment_extra p)
  | _, _ => PaymentInst (payment_row p) ((name, v) :: payment_extra p)
  end.

Fixpoint find_order (id : Z) (os : list Order) : option Order :=
  match os with
  | [] => None
  | o :: os' => if Z.eqb (order_id o) id then Some o else find_order id os'
  end.

(** [order.save()]: an UPDATE of the row's fields (the [auto_now]
    timestamp [updated_at], which it also refreshes, is not modelled). *)
Definition save_order (o : order_inst) (d : db) : db :=
  let r := order_row o in
  mkDb (map (fun o' => if Z.eqb (order_id o') (order_id r) then r else o') (orders d))
       (order_items d) (payments d) (next_order_id d).

(** [payment.save()]; the one-to-one [order] column identifies the row. *)
Definition save_payment (p : payment_inst) (d : db) : db :=
  let r := payment_row p in
  mkDb (orders d) (order_items d)
       (map (fun p' => if Z.eqb (pay_order p') (pay_order r) then r else p') (payments d))
       (next_order_id d).

(* ------------------------------------------------------------------ *)
(** ** [OrderCreateAPIView.post] *)

Definition order_statuses : list string :=
  ["pending"; "processing"; "completed"; "cancelled"]%string.

(** The writable fields of [OrderSerializer] in the request body ([status]
    and [is_paid]; the others are read-only); an absent key is [None]. *)
Record order_request := OrderRequest { req_status : option string; req_is_paid : option bool }.

Definition order_request_valid (data : order_request) : bool :=
  match req_status data with
  | Some s => existsb (String.eqb s) order_statuses
  | None => true
  end.

(** [OrderItem(order=order, product=item['product'], price=item['price'],
    quantity=item['quantity'])] for every yielded item, then
    [bulk_create]; a [None] product violates the NOT NULL foreign key and
    the insert raises ([None] result). *)
Fixpoint build_order_items (oid : Z) (items : list cart_item) : option (list OrderItem) :=
  match items with
  | [] => Some []
  | it :: items' =>
      match item_product it, build_order_items oid items' with
      | Some p, Some rest =>
          Some (mkOrderItem oid (product_id p) (item_quantity it) (item_price it) :: rest)
      | _, _ => None
      end
  end.

(** The view: status code, database and session payload afterwards.
    [serializer.save()] inserts the order with the model defaults
    ([total_price=0.00], [is_paid=False], [status='pending']) for the
    fields the body leaves out.  The view runs in Django's default
    autocommit mode: the order row stays when [bulk_create] raises.  The
    e-mail dispatch is wrapped in [try]/[except] and changes no state. *)
Definition order_create_view (raw : session_cart) (products : catalog) (user : Z)
  (data : order_request) (d : db) : Z * db * session_cart :=
  let c := validate_cart raw in
  if cart_len c <? 0 then (500, d, raw)
  else if cart_len c =? 0 then (400, d, raw)
  else if negb (order_request_valid data) then (400, d, raw)
  else
    let o := mkOrder (next_order_id d) user
               (match req_is_paid data with Some b => b | None => false end)
               (Dec 0 2)
               (match req_status data with Some s => s | None => "pending"%string end) in
    let d1 := mkDb (orders d ++ [o]) (order_items d) (payments d) (next_order_id d + 1) in
    match build_order_items (order_id o) (cart_iter c products) with
    | None => (500, d1, raw)
    | Some its =>
        (201, mkDb (orders d1) (order_items d1 ++ its) (payments d1) (next_order_id d1),
         cart_clear raw)
    end.

(* ------------------------------------------------------------------ *)
(** ** [payment/views.py] *)

(** Truth value of an attribute in an [if]. *)
Definition truthy (v : attrval) : bool :=
  match v with
  | ABool b => b
  | AStr s => negb (String.eqb s "")
  | AOther => true
  end.

Fixpoint find_user_order (id user : Z) (os : list Order) : option Order :=
  match os with
  | [] => None
  | o :: os' =>
      if Z.eqb (order_id o) id && Z.eqb (order_user o) user then Some o
      else find_user_order id user os'
  end.

(** [create_checkout_session]: [stripe_session] is the id returned by
    [stripe.checkout.Session.create] ([None] when it raises).  The row
    creation inside [try] raises, and is answered with 500, when the
    order already has its one-to-one payment. *)
Definition create_checkout_session (d : db) (user oid : Z) (stripe_session : option string)
  : Z * db :=
  match find_user_order oid user (orders d) with
  | None => (404, d)
  | Some o =>
      match order_getattr (OrderInst o []) "paid" with
      | None => (500, d)
      | Some v =>
          if truthy v then (400, d)
          else match stripe_session with
               | None => (500, d)
               | Some sid =>
                   if existsb (fun p => Z.eqb (pay_order p) (order_id o)) (payments d)
                   then (500, d)
                   else (201, mkDb (orders d) (order_items d)
                                   (payments d ++ [mkPayment (order_id o) sid (total_price o) false])
                                   (next_order_id d))
               end
      end
  end.

(** [handle_successful_payment]; [None] is an exception other than
    [Payment.DoesNotExist] ([MultipleObjectsReturned], or a missing
    order row). *)
Definition handle_successful_payment (d : db) (sid : string) : option db :=
  match filter (fun p => String.eqb (stripe_checkout_id p) sid) (payments d) with
  | [] => Some d
  | [p] =>
      match find_order (pay_order p) (orders d) with
      | None => None
      | Some o =>
          let order := order_setattr (OrderInst o []) "paid" (ABool true) in
          let d1 := save_order order d in
          let payment := payment_setattr (PaymentInst p []) "status" (AStr "completed") in
          Some (save_payment payment d1)
      end
  | _ => None
  end.

(** A verified provider event. *)
Record event := Event { ev_type : string; ev_session_id : string }.

(** [stripe_webhook]: [verified] is the result of
    [stripe.Webhook.construct_event] ([None] when it raises). *)
Definition stripe_webhook (d : db) (verified : option event) : Z * db :=
  match verified with
  | None => (400, d)
  | Some ev =>
      if String.eqb (ev_type ev) "checkout.session.completed" then
        match handle_successful_payment d (ev_session_id ev) with
        | Some d' => (200, d')
        | None => (500, d)
        end
      else (200, d)
  end.

(* ------------------------------------------------------------------ *)
(** ** [CartRemoveProductView.post] and [CartDetailView.get] *)

(** One entry of the [cart_data] list the two views build: the product's
    id, the quantity, the price and the line total (the product name is
    left out). *)
Record cart_entry := CartEntry {
  entry_product_id : Z;
  entry_quantity : Z;
  entry_price : dec;
  entry_total_price : dec
}.

(** The [cart_data] comprehension; [None] when an item's product is
    [None], where [item['product'].id] raises [AttributeError]. *)
Fixpoint cart_data (items : list cart_item) : option (list cart_entry) :=
  match items with
  | [] => Some []
  | it :: items' =>
      match item_product it, cart_data items' with
      | Some p, Some rest =>
          Some (CartEntry (product_id p) (item_quantity it) (item_price it)
                          (item_total_price it) :: rest)
      | _, _ => None
      end
  end.

(** [CartRemoveProductView.post]: status, session payload and the body's
    [cart] and [total_price].  A 500 answer is not followed by the session
    save of Django's session middleware, so the stored payload stays. *)
Definition cart_remove_view (raw : session_cart) (products : catalog) (pid : Z)
  : Z * session_cart * option (list cart_entry * dec) :=
  let c := validate_cart raw in
  match find_product pid products with
  | None => (404, raw, None)
  | Some product =>
      if negb (dict_mem (product_id product) c) then (404, raw, None)
      else
        let c' := cart_remove c (product_id product) in
        match cart_data (cart_iter c' products) with
        | None => (500, raw, None)
        | Some data => (200, cart_to_session c', Some (data, get_total_price c'))
        end
  end.

(** [CartDetailView.get]: status and the body's [cart] and [total_price]. *)
Definition cart_detail_view (raw : session_cart) (products : catalog)
  : Z * option (list cart_entry * dec) :=
  let c := validate_cart raw in
  match cart_data (cart_iter c products) with
  | None => (500, None)
  | Some data => (200, Some (data, get_total_price c))
  end.

(* ------------------------------------------------------------------ *)
(** ** [OrderItem.get_total] and [Order.get_total_price] *)

(** [self.quantity * self.price]: [int * Decimal] goes through
    [Decimal.__rmul__]. *)
Definition orderitem_get_total (it : OrderItem) : dec :=
  dec_mul (dec_of_int (oi_quantity it)) (oi_price it).

(** [sum(item.get_total() for item in self.items.all())] for the order
    with id [oid]. *)
Definition order_get_total_price (d : db) (oid : Z) : dec :=
  fold_left (fun acc it => dec_add acc (orderitem_get_total it))
    (filter (fun it => Z.eqb (oi_order it) oid) (order_items d)) (dec_of_int 0).

(* ------------------------------------------------------------------ *)
(** ** Sample data *)

(** A product at 10.00 with 50 units in stock, the same product after a
    price change to 12.00, and with a single unit left. *)
Definition tomato : Product := mkProduct 1 (Dec 1000 2) 50 true.
Definition tomato_repriced : Product := mkProduct 1 (Dec 1200 2) 50 true.
Definition tomato_last_unit : Product := mkProduct 1 (Dec 1000 2) 1 true.

(** The session payload [{'1': {'quantity': 3, 'price': '10.00'}}]. *)
Definition three_tomatoes : session_cart :=
  [(1, RawItem (Some (PInt 3)) (Some (PNumStr 1000 2)))].

Definition empty_db : db := mkDb [] [] [] 100.
Definition empty_body : order_request := OrderRequest None None.

(** Order 5 of user 7 (30.00, unpaid) with its pending payment for the
    checkout session ["cs_1"]; and the same order already paid. *)
Definition unpaid_order : Order := mkOrder 5 7 false (Dec 3000 2) "pending"%string.
Definition pending_db : db :=
  mkDb [unpaid_order] [] [mkPayment 5 "cs_1"%string (Dec 3000 2) false] 6.
Definition paid_db : db :=
  mkDb [mkOrder 5 7 true (Dec 3000 2) "pending"%string] [] [] 6.

Definition completed_event : event :=
  Event "checkout.session.completed"%string "cs_1"%string.

(* ================================================================== *)
(** * Properties *)

(** ** Reachable carts

    The carts a request can hold: the cleaned session payload, and the
    results of [add] and [remove] on a reachable cart. *)
Inductive reachable : cart -> Prop :=
| reach_load (raw : session_cart) : reachable (validate_cart raw)
| reach_add (c c' : cart) (product : Product) (qty : Z) (u : bool) :
    reachable c -> cart_add c product qty u = Some c' -> reachable c'
| reach_remove (c : cart) (pid : Z) : reachable c -> reachable (cart_remove c pid).

Definition line_ok (l : line) : Prop := 0 <= quantity l /\ (0 <= dec_val (price l))%Q.

(** ** Decimal arithmetic *)

Lemma pow10_pos (e : nat) : 0 < pow10 e.
Proof. unfold pow10. apply Z.pow_pos_nonneg; lia. Qed.

Lemma pow10_to_pos (e : nat) : Z.pos (Z.to_pos (pow10 e)) = pow10 e.
Proof. apply Z2Pos.id, pow10_pos. Qed.

Lemma pow10_add (a b : nat) : pow10 (a + b) = pow10 a * pow10 b.
Proof. unfold pow10. rewrite Nat2Z.inj_add. apply Z.pow_add_r; lia. Qed.

Lemma dec_val_add (a b : dec) :
  (dec_val (dec_add a b) == dec_val a + dec_val b)%Q.
Proof.
  destruct a as [m1 e1], b as [m2 e2].
  unfold dec_add, dec_val, Qeq, Qplus; simpl.
  rewrite !Pos2Z.inj_mul, !pow10_to_pos.
  set (E := Nat.max e1 e2).
  assert (HA : pow10 (E - e1) * pow10 e1 = pow10 E).
  { rewrite <- pow10_add. f_equal. unfold E. lia. }
  assert (HB : pow10 (E - e2) * pow10 e2 = pow10 E).
  { rewrite <- pow10_add. f_equal. unfold E. lia. }
  transitivity (m1 * (pow10 (E - e1) * pow10 e1) * pow10 e2
                + m2 * (pow10 (E - e2) * pow10 e2) * pow10 e1); [ring|].
  rewrite HA, HB. ring.
Qed.

Lemma dec_val_mul_int (a : dec) (n : Z) :
  (dec_val (dec_mul_int a n) == dec_val a * inject_Z n)%Q.
Proof.
  destruct a as [m e].
  unfold dec_mul_int, dec_mul, dec_of_int, dec_val, Qeq, Qmult, inject_Z; simpl.
  rewrite Nat.add_0_r. replace (pow10 0) with 1 by reflexivity.
  simpl Z.to_pos. rewrite Pos.mul_1_r. ring.
Qed.

Lemma dec_val_zero (m : Z) (e : nat) : m = 0 -> (dec_val (Dec m e) == 0)%Q.
Proof. intros ->. reflexivity. Qed.

Lemma dec_val_eq_zero (d : dec) : (dec_val d == 0)%Q -> dm d = 0.
Proof.
  destruct d as [m e]. unfold dec_val, Qeq; simpl. lia.
Qed.

Lemma dec_leb_spec (a b : dec) : dec_leb a b = true <-> (dec_val a <= dec_val b)%Q.
Proof. unfold dec_leb. apply Qle_bool_iff. Qed.

Lemma dec_ltb_false (a b : dec) : dec_ltb a b = false -> (dec_val b <= dec_val a)%Q.
Proof.
  unfold dec_ltb. intros H. apply negb_false_iff in H. now apply Qle_bool_iff.
Qed.

Lemma dec_val_of_int_0 : (dec_val (dec_of_int 0) == 0)%Q.
Proof. reflexivity. Qed.

(** ** Dict lemmas *)

Section DictLemmas.
Context {V : Type}.
Implicit Types d : list (Z * V).

Lemma dict_set_Forall (P : V -> Prop) k v d :
  Forall (fun e => P (snd e)) d -> P v -> Forall (fun e => P (snd e)) (dict_set k v d).
Proof.
  induction d as [|[k' v'] d IH]; simpl; intros Hd Hv.
  - constructor; auto.
  - inversion Hd; subst. destruct (Z.eqb k k'); constructor; auto.
Qed.

Lemma dict_del_Forall (P : V -> Prop) k d :
  Forall (fun e => P (snd e)) d -> Forall (fun e => P (snd e)) (dict_del k d).
Proof.
  induction d as [|[k' v'] d IH]; simpl; intros Hd; auto.
  inversion Hd; subst. destruct (Z.eqb k k'); auto.
Qed.

Lemma dict_get_Forall (P : V -> Prop) k v d :
  Forall (fun e => P (snd e)) d -> dict_get k d = Some v -> P v.
Proof.
  induction d as [|[k' v'] d IH]; simpl; intros Hd Hg; [discriminate|].
  inversion Hd; subst. destruct (Z.eqb k k'); [injection Hg as <-; auto | auto].
Qed.

Lemma dict_get_set_eq k v d : dict_get k (dict_set k v d) = Some v.
Proof.
  induction d as [|[k' v'] d IH]; simpl.
  - now rewrite Z.eqb_refl.
  - destruct (Z.eqb k k') eqn:E; simpl; rewrite ?E; auto.
Qed.

Lemma dict_get_some_mem k d : dict_mem k d = true -> exists v, dict_get k d = Some v.
Proof. unfold dict_mem. destruct (dict_get k d); [eauto | discriminate]. Qed.

End DictLemmas.

(** ** Well-formedness of reachable carts *)

Lemma validate_cart_ok (raw : session_cart) :
  Forall (fun e => line_ok (snd e)) (validate_cart raw).
Proof.
  unfold validate_cart.
  assert (G : forall acc, Forall (fun e => line_ok (snd e)) acc ->
            Forall (fun e => line_ok (snd e)) (fold_left validate_entry raw acc)).
  { induction raw as [|[pid item] raw IH]; simpl; intros acc Hacc; auto.
    apply IH. unfold validate_entry.
    destruct (py_int (match raw_quantity item with Some v => v | None => PInt 0 end)) as [q|];
      destruct (py_decimal (match raw_price item with Some v => v | None => PNone end)) as [p|];
      auto.
    destruct (q <? 0) eqn:Hq; simpl; auto.
    destruct (dec_ltb p (dec_of_int 0)) eqn:Hp; auto.
    apply dict_set_Forall; auto. split; simpl.
    - apply Z.ltb_ge in Hq. exact Hq.
    - apply dec_ltb_false in Hp. exact Hp. }
  apply G. constructor.
Qed.

Lemma cart_add_ok (c c' : cart) product qty u :
  Forall (fun e => line_ok (snd e)) c -> cart_add c product qty u = Some c' ->
  Forall (fun e => line_ok (snd e)) c'.
Proof.
  unfold cart_add. intros Hc Hadd.
  destruct (dec_leb (product_price product) (dec_of_int 0)) eqn:Hp; [discriminate|].
  set (c1 := if dict_mem (product_id product) c then c
             else dict_set (product_id product) (Line 0 (product_price product)) c) in *.
  assert (Hc1 : Forall (fun e => line_ok (snd e)) c1).
  { unfold c1. destruct (dict_mem _ _); auto.
    apply dict_set_Forall; auto. split; simpl; [lia|].
    assert (N : ~ (dec_val (product_price product) <= dec_val (dec_of_int 0))%Q).
    { intro H. apply dec_leb_spec in H. congruence. }
    apply Qnot_le_lt in N. apply Qlt_le_weak. exact N. }
  destruct (dict_get (product_id product) c1) as [l|] eqn:Hl; [|discriminate].
  injection Hadd as <-. apply dict_set_Forall; auto.
  pose proof (dict_get_Forall line_ok _ _ _ Hc1 Hl) as [Hq Hpr].
  split; simpl; [destruct u; lia | exact Hpr].
Qed.

Lemma reachable_ok (c : cart) : reachable c -> Forall (fun e => line_ok (snd e)) c.
Proof.
  induction 1.
  - apply validate_cart_ok.
  - eapply cart_add_ok; eauto.
  - unfold cart_remove. destruct (dict_mem pid c); auto. apply dict_del_Forall; auto.
Qed.

(** ** Line totals *)

Lemma iter_line_total (products : catalog) (pid : Z) (l : line) :
  line_ok l ->
  (dec_val (item_total_price (iter_line products pid l))
   == dec_val (dec_mul_int (price l) (quantity l)))%Q.
Proof.
  intros [Hq Hp]. unfold iter_line.
  destruct (dec_leb (price l) (dec_of_int 0)) eqn:Hle; simpl.
  - apply dec_leb_spec in Hle.
    assert (Z0 : (dec_val (price l) == 0)%Q).
    { apply Qle_antisym; [exact Hle | exact Hp]. }
    apply dec_val_eq_zero in Z0.
    destruct (price l) as [m e]; simpl in *; subst m.
    unfold dec_mul_int, dec_mul; simpl. reflexivity.
  - destruct (quantity l <=? 0) eqn:Hq0; simpl; [|reflexivity].
    apply Z.leb_le in Hq0. assert (quantity l = 0) as -> by lia.
    unfold dec_mul_int, dec_mul; simpl. rewrite Z.mul_0_r. reflexivity.
Qed.

Lemma total_fold (products : catalog) (c : cart) (acc1 acc2 : dec) :
  Forall (fun e => line_ok (snd e)) c ->
  (dec_val acc1 == dec_val acc2)%Q ->
  (dec_val (fold_left (fun acc e => dec_add acc (dec_mul_int (price (snd e)) (quantity (snd e))))
              c acc1)
   == dec_val (fold_left (fun acc it => dec_add acc (item_total_price it))
                 (map (fun e => iter_line products (fst e) (snd e)) c) acc2))%Q.
Proof.
  revert acc1 acc2.
  induction c as [|[pid l] c IH]; simpl; intros acc1 acc2 Hc Hacc; auto.
  inversion Hc; subst. apply IH; auto.
  rewrite !dec_val_add, Hacc, iter_line_total by assumption. reflexivity.
Qed.

(* ------------------------------------------------------------------ *)
(** ** Claims *)

(** C7: for every cart a request can hold, [get_total_price()] equals the
    sum of the ['total_price'] of the items yielded by [__iter__], whatever
    the product table: the total uses the stored snapshot prices only. *)
Theorem cart_total_is_sum_of_line_totals (c : cart) (products : catalog) :
  reachable c ->
  (dec_val (get_total_price c) == dec_val (sum_line_totals (cart_iter c products)))%Q.
Proof.
  intros Hr. unfold get_total_price, sum_line_totals, cart_iter.
  apply total_fold; [apply reachable_ok; exact Hr | reflexivity].
Qed.

Lemma cart_total_is_sum_of_line_totals_witness :
  reachable (validate_cart three_tomatoes) /\
  (dec_val (get_total_price (validate_cart three_tomatoes))
   == dec_val (sum_line_totals (cart_iter (validate_cart three_tomatoes) [tomato_repriced])))%Q.
Proof.
  split; [apply reach_load|].
  apply cart_total_is_sum_of_line_totals. apply reach_load.
Defined.


(** C10: adding to a product that already has a line changes only that
    line's quantity and keeps its stored unit price, whatever the current
    catalog price of the product. *)
Theorem cart_add_keeps_price_snapshot (c c' : cart) (product : Product) (qty : Z)
  (update_quantity : bool) (l : line) :
  dict_get (product_id product) c = Some l ->
  cart_add c product qty update_quantity = Some c' ->
  c' = dict_set (product_id product)
         (Line (if update_quantity then Z.max 0 qty else Z.max 0 (quantity l + qty))
               (price l)) c.
Proof.
  intros Hl Hadd. unfold cart_add in Hadd.
  assert (M : dict_mem (product_id product) c = true) by (unfold dict_mem; rewrite Hl; reflexivity).
  destruct (dec_leb (product_price product) (dec_of_int 0)); [discriminate|].
  rewrite M, Hl in Hadd. injection Hadd as <-. reflexivity.
Qed.

Lemma cart_add_keeps_price_snapshot_witness :
  dict_get 1 [(1, Line 2 (Dec 1000 2))] = Some (Line 2 (Dec 1000 2)) /\
  cart_add [(1, Line 2 (Dec 1000 2))] tomato_repriced 1 false
    = Some [(1, Line 3 (Dec 1000 2))] /\
  [(1, Line 3 (Dec 1000 2))]
    = dict_set 1 (Line (Z.max 0 (2 + 1)) (Dec 1000 2)) [(1, Line 2 (Dec 1000 2))].
Proof.
  split; [reflexivity|]. split; [reflexivity|].
  apply (cart_add_keeps_price_snapshot [(1, Line 2 (Dec 1000 2))] _ tomato_repriced 1 false
           (Line 2 (Dec 1000 2))); reflexivity.
Defined.

(** C5: when the product exists and is unavailable, or the line quantity
    the request would produce ([quantity] with [override], the current
    quantity plus [quantity] without) exceeds its stock, the add view
    answers 400 and the session payload is left as it was. *)
Theorem cart_add_view_rejects_over_stock (raw : session_cart) (products : catalog)
  (pid : Z) (req : add_request) (product : Product) :
  find_product pid products = Some product ->
  let c := validate_cart raw in
  let qty := match req_quantity req with Some q => q | None => 1 end in
  let override := match req_override req with Some b => b | None => false end in
  let current := match dict_get (product_id product) c with
                 | Some l => quantity l | None => 0 end in
  let resulting := if override then qty else current + qty in
  is_available product = false \/ stock_quantity product < resulting ->
  cart_add_view raw products pid req = (400, raw).
Proof.
  intros Hp c qty override current resulting Hbad.
  unfold cart_add_view. rewrite Hp. unfold validate_add_request. fold qty override.
  destruct (qty <? 1) eqn:H1; [reflexivity|].
  destruct (is_available product) eqn:Ha; simpl; [|reflexivity].
  destruct (stock_quantity product <? qty) eqn:Hs; [reflexivity|].
  fold c. fold current.
  destruct Hbad as [Hbad|Hbad]; [discriminate|].
  replace (stock_quantity product <? (if override then qty else current + qty)) with true;
    [reflexivity|].
  symmetry. apply Z.ltb_lt. exact Hbad.
Qed.

Lemma cart_add_view_rejects_over_stock_witness :
  find_product 1 [tomato] = Some tomato /\
  cart_add_view three_tomatoes [tomato] 1 (AddRequest (Some 48) None) = (400, three_tomatoes).
Proof.
  split; [reflexivity|].
  apply (cart_add_view_rejects_over_stock three_tomatoes [tomato] 1 _ tomato);
    [reflexivity | right; vm_compute; reflexivity].
Defined.

(** C8: when the cleaned cart holds no items (no lines, or only lines of
    quantity 0, so that [len(cart) == 0]), order creation answers 400 and
    changes neither the database nor the session. *)
Theorem order_create_empty_cart (raw : session_cart) (products : catalog) (user : Z)
  (data : order_request) (d : db) :
  cart_len (validate_cart raw) = 0 ->
  order_create_view raw products user data d = (400, d, raw).
Proof.
  intros H0. unfold order_create_view. rewrite H0. reflexivity.
Qed.

Lemma order_create_empty_cart_witness :
  cart_len (validate_cart []) = 0 /\
  order_create_view [] [tomato] 7 empty_body empty_db = (400, empty_db, []).
Proof.
  split; [reflexivity|]. apply order_create_empty_cart. reflexivity.
Defined.

(** ** Order items *)

Lemma iter_line_fields (products : catalog) (pid : Z) (l : line) :
  item_product (iter_line products pid l) = find_product pid products /\
  item_quantity (iter_line products pid l) = quantity l /\
  item_price (iter_line products pid l) = price l.
Proof.
  unfold iter_line.
  destruct (dec_leb _ _); [|destruct (_ <=? 0)]; repeat split.
Qed.

Lemma build_items_ok (oid : Z) (products : catalog) (c : cart) :
  (forall pid l, In (pid, l) c -> find_product pid products <> None) ->
  exists its, build_order_items oid (cart_iter c products) = Some its /\
              List.length its = List.length c.
Proof.
  unfold cart_iter.
  induction c as [|[pid l] c IH]; intros Hall.
  - exists []. split; reflexivity.
  - destruct IH as [its [Hits Hlen]].
    { intros pid' l' Hin. apply (Hall pid' l'). right. exact Hin. }
    destruct (iter_line_fields products pid l) as [Hp _].
    cbn [map build_order_items fst snd].
    destruct (find_product pid products) as [p|] eqn:Hf.
    + rewrite Hp, Hits.
      eexists. split; [reflexivity|]. simpl. now rewrite Hlen.
    + exfalso. apply (Hall pid l); [left; reflexivity | exact Hf].
Qed.

Lemma build_items_missing (oid : Z) (products : catalog) (c : cart) :
  (exists pid l, In (pid, l) c /\ find_product pid products = None) ->
  build_order_items oid (cart_iter c products) = None.
Proof.
  unfold cart_iter.
  induction c as [|[pid l] c IH]; intros [pid' [l' [Hin Hf]]]; [contradiction|].
  destruct (iter_line_fields products pid l) as [Hp _].
  cbn [map build_order_items fst snd].
  destruct Hin as [Heq|Hin].
  - injection Heq as -> ->. rewrite Hp, Hf. reflexivity.
  - rewrite IH by eauto.
    destruct (item_product _); reflexivity.
Qed.

(** C1 (counterexample): with one unit left in stock, a cart line of 3
    is turned into an order and an order item, and the cart is cleared. *)
Lemma order_created_beyond_stock :
  stock_quantity tomato_last_unit < 3 /\
  exists d', order_create_view three_tomatoes [tomato_last_unit] 7 empty_body empty_db
             = (201, d', []) /\ orders d' <> [] /\ order_items d' <> [].
Proof.
  split; [reflexivity|].
  eexists. split; [reflexivity|]. split; discriminate.
Qed.

(** C1 (amended): order creation does not check stock and runs in
    autocommit mode.  For a cart with items: invalid body data is
    answered 400 with nothing changed; otherwise, whatever the stock of
    the products, when every line's product exists the order and one
    item per line are inserted, 201 is answered and the cart is cleared,
    and when some line's product is gone the order row is inserted, the
    item insert raises (500), and the cart is kept. *)
Theorem order_create_without_stock_check (raw : session_cart) (products : catalog)
  (user : Z) (data : order_request) (d : db) :
  let c := validate_cart raw in
  let o := mkOrder (next_order_id d) user
             (match req_is_paid data with Some b => b | None => false end) (Dec 0 2)
             (match req_status data with Some s => s | None => "pending"%string end) in
  0 < cart_len c ->
  (order_request_valid data = false ->
     order_create_view raw products user data d = (400, d, raw)) /\
  (order_request_valid data = true ->
     (forall pid l, In (pid, l) c -> find_product pid products <> None) ->
     exists its, List.length its = List.length c /\
       order_create_view raw products user data d
       = (201, mkDb (orders d ++ [o]) (order_items d ++ its) (payments d) (next_order_id d + 1),
          [])) /\
  (order_request_valid data = true ->
     (exists pid l, In (pid, l) c /\ find_product pid products = None) ->
     order_create_view raw products user data d
     = (500, mkDb (orders d ++ [o]) (order_items d) (payments d) (next_order_id d + 1), raw)).
Proof.
  intros c o Hlen.
  assert (Hpre : forall r, (if cart_len c <? 0 then (500, d, raw)
                           else if cart_len c =? 0 then (400, d, raw) else r) = r).
  { intros r. replace (cart_len c <? 0) with false by (symmetry; apply Z.ltb_ge; lia).
    replace (cart_len c =? 0) with false by (symmetry; apply Z.eqb_neq; lia). reflexivity. }
  unfold order_create_view. fold c. rewrite Hpre. fold o. simpl (order_id o).
  split; [|split].
  - intros Hv. rewrite Hv. reflexivity.
  - intros Hv Hall. rewrite Hv. simpl negb. cbv iota.
    destruct (build_items_ok (next_order_id d) products c Hall) as [its [Hits Hl]].
    rewrite Hits. exists its. split; [exact Hl | reflexivity].
  - intros Hv Hmiss. rewrite Hv. simpl negb. cbv iota.
    rewrite build_items_missing by exact Hmiss. reflexivity.
Qed.

Lemma order_create_without_stock_check_witness :
  0 < cart_len (validate_cart three_tomatoes) /\
  exists its, List.length its = List.length (validate_cart three_tomatoes) /\
    order_create_view three_tomatoes [tomato_last_unit] 7 empty_body empty_db
    = (201, mkDb ([] ++ [mkOrder 100 7 false (Dec 0 2) "pending"%string]) ([] ++ its) []
                 (100 + 1), []).
Proof.
  assert (Hlen : 0 < cart_len (validate_cart three_tomatoes)) by (vm_compute; reflexivity).
  split; [exact Hlen|].
  destruct (order_create_without_stock_check three_tomatoes [tomato_last_unit] 7
              empty_body empty_db Hlen) as [_ [H _]].
  apply H; [reflexivity|].
  intros pid l Hin. simpl in Hin. destruct Hin as [E|[]].
  injection E as <- <-. simpl. discriminate.
Defined.

(** C2 (code defect): for the cart [{'1': 3 x 10.00}] the order is created
    and the cart cleared, the item copies quantity 3 and price 10.00, and
    the cart total is 30.00, but the stored order keeps the model default
    [total_price = 0.00]: nothing computes or writes the total. *)
Theorem order_total_price_left_at_default :
  order_create_view three_tomatoes [tomato] 7 empty_body empty_db
  = (201, mkDb [mkOrder 100 7 false (Dec 0 2) "pending"%string]
               [mkOrderItem 100 1 3 (Dec 1000 2)] [] 101, []) /\
  (dec_val (get_total_price (validate_cart three_tomatoes)) == 30)%Q /\
  ~ (dec_val (Dec 0 2) == 30)%Q.
Proof.
  split; [reflexivity|]. split; [reflexivity|].
  unfold dec_val, Qeq; simpl. discriminate.
Qed.

(** C9 (counterexample): a line whose product is gone from the table is
    yielded with [product = None] and its full total 2 x 10.00, not 0. *)
Lemma missing_product_keeps_line_total :
  cart_iter [(1, Line 2 (Dec 1000 2))] []
  = [CartItem None 2 (Dec 1000 2) (Dec 2000 2)] /\
  ~ (dec_val (Dec 2000 2) == 0)%Q.
Proof.
  split; [reflexivity|]. unfold dec_val, Qeq; simpl. discriminate.
Qed.

(** C9 (amended): iteration yields one item per line, in order, and
    never fails as a whole.  The item carries the line's quantity and
    snapshot price and the product found in the table ([None] when it is
    gone).  Its total is quantity x price when both are positive, and 0
    when the stored price or quantity is not positive (a corrupt line);
    a line whose product is gone keeps its normal total. *)
Theorem cart_iter_line_items (c : cart) (products : catalog) (n : nat) (pid : Z) (l : line) :
  nth_error c n = Some (pid, l) ->
  exists it, nth_error (cart_iter c products) n = Some it /\
    item_product it = find_product pid products /\
    item_quantity it = quantity l /\ item_price it = price l /\
    ((0 < dec_val (price l))%Q -> 0 < quantity l ->
       (dec_val (item_total_price it) == dec_val (price l) * inject_Z (quantity l))%Q) /\
    ((dec_val (price l) <= 0)%Q \/ quantity l <= 0 -> (dec_val (item_total_price it) == 0)%Q).
Proof.
  intros Hn. unfold cart_iter. rewrite nth_error_map, Hn. simpl.
  eexists. split; [reflexivity|].
  destruct (iter_line_fields products pid l) as [Hp [Hq Hpr]].
  split; [exact Hp|]. split; [exact Hq|]. split; [exact Hpr|].
  unfold iter_line.
  destruct (dec_leb (price l) (dec_of_int 0)) eqn:Hle;
    [|destruct (quantity l <=? 0) eqn:Hq0]; simpl.
  - apply dec_leb_spec in Hle. split.
    + intros Hpos. exfalso. apply (Qlt_not_le _ _ Hpos). exact Hle.
    + intros _. reflexivity.
  - apply Z.leb_le in Hq0. split.
    + intros _ Hpos. lia.
    + intros _. reflexivity.
  - apply Z.leb_gt in Hq0.
    assert (Hgt : ~ (dec_val (price l) <= 0)%Q).
    { intro H.
      assert (H' : dec_leb (price l) (dec_of_int 0) = true) by (apply dec_leb_spec; exact H).
      congruence. }
    split.
    + intros _ _. apply dec_val_mul_int.
    + intros [H|H]; [contradiction | lia].
Qed.

Lemma cart_iter_line_items_witness :
  nth_error [(1, Line 2 (Dec 1000 2))] 0 = Some (1, Line 2 (Dec 1000 2)) /\
  exists it, nth_error (cart_iter [(1, Line 2 (Dec 1000 2))] []) 0 = Some it /\
    item_product it = None.
Proof.
  split; [reflexivity|].
  destruct (cart_iter_line_items [(1, Line 2 (Dec 1000 2))] [] 0 1 (Line 2 (Dec 1000 2))
              eq_refl) as [it [H1 [H2 _]]].
  exists it. split; [exact H1 | exact H2].
Defined.

(** C3 (code defect): delivering the verified completion event for
    ["cs_1"] twice answers 200 both times, but order 5 stays unpaid and
    the payment row stays unchanged: the handler sets [order.paid], which
    is not a field ([is_paid] is), and [payment.status], which is not
    one either ([is_successful] is). *)
Theorem webhook_twice_never_marks_paid :
  fst (stripe_webhook pending_db (Some completed_event)) = 200 /\
  fst (stripe_webhook (snd (stripe_webhook pending_db (Some completed_event)))
         (Some completed_event)) = 200 /\
  orders (snd (stripe_webhook pending_db (Some completed_event))) = [unpaid_order] /\
  orders (snd (stripe_webhook (snd (stripe_webhook pending_db (Some completed_event)))
                 (Some completed_event))) = [unpaid_order] /\
  payments (snd (stripe_webhook (snd (stripe_webhook pending_db (Some completed_event)))
                   (Some completed_event))) = payments pending_db.
Proof. vm_compute. repeat split. Qed.

(** C4 (code defect): for every order of the user, paid or not, the view
    reads [order.paid], which the [Order] model does not have; the
    [AttributeError] ends the request with 500 before the paid check,
    and no payment row is written. *)
Theorem checkout_session_always_fails (d : db) (user oid : Z) (stripe_session : option string)
  (o : Order) :
  find_user_order oid user (orders d) = Some o ->
  create_checkout_session d user oid stripe_session = (500, d).
Proof.
  intros Hf. unfold create_checkout_session. rewrite Hf. reflexivity.
Qed.

Lemma checkout_session_always_fails_witness :
  find_user_order 5 7 (orders paid_db) = Some (mkOrder 5 7 true (Dec 3000 2) "pending"%string) /\
  create_checkout_session paid_db 7 5 (Some "cs_2"%string) = (500, paid_db).
Proof.
  split; [reflexivity|].
  apply (checkout_session_always_fails paid_db 7 5 _ (mkOrder 5 7 true (Dec 3000 2) "pending"%string)).
  reflexivity.
Defined.

(* ================================================================== *)
(** * Further properties of the cart, the views and the payment flow *)

(** ** Keys of the dicts *)

Section DictKeys.
Context {V : Type}.
Implicit Types d : list (Z * V).

Lemma dict_get_none_notin k d : dict_get k d = None <-> ~ In k (map fst d).
Proof.
  induction d as [|[k' v'] d IH]; simpl; [tauto|].
  destruct (Z.eqb k k') eqn:E.
  - apply Z.eqb_eq in E. subst. split; [discriminate | intros H; exfalso; auto].
  - apply Z.eqb_neq in E. rewrite IH. split; intros H; [intros [H'|H']; [congruence|auto] | auto].
Qed.

Lemma dict_set_absent k v d : ~ In k (map fst d) -> dict_set k v d = d ++ [(k, v)].
Proof.
  induction d as [|[k' v'] d IH]; simpl; intros Hn; auto.
  destruct (Z.eqb k k') eqn:E.
  - apply Z.eqb_eq in E. subst. exfalso. auto.
  - rewrite IH; auto.
Qed.

Lemma dict_set_keys_in k k0 v d : In k0 (map fst (dict_set k v d)) -> k0 = k \/ In k0 (map fst d).
Proof.
  induction d as [|[k' v'] d IH]; simpl; intros H.
  - destruct H as [H|[]]; auto.
  - destruct (Z.eqb k k') eqn:E; simpl in H.
    + destruct H as [H|H]; auto.
    + destruct H as [H|H]; auto. destruct (IH H); auto.
Qed.

Lemma dict_set_nodup k v d : NoDup (map fst d) -> NoDup (map fst (dict_set k v d)).
Proof.
  induction d as [|[k' v'] d IH]; simpl; intros H.
  - constructor; [intros []|constructor].
  - inversion H; subst. destruct (Z.eqb k k') eqn:E; simpl; constructor; auto.
    intros Hin. apply dict_set_keys_in in Hin. destruct Hin as [->|Hin]; [|auto].
    rewrite Z.eqb_refl in E. discriminate.
Qed.

Lemma dict_del_keys_in k k0 d : In k0 (map fst (dict_del k d)) -> In k0 (map fst d).
Proof.
  induction d as [|[k' v'] d IH]; simpl; intros H; auto.
  destruct (Z.eqb k k'); simpl in H; auto. destruct H; auto.
Qed.

Lemma dict_del_nodup k d : NoDup (map fst d) -> NoDup (map fst (dict_del k d)).
Proof.
  induction d as [|[k' v'] d IH]; simpl; intros H; auto.
  inversion H; subst. destruct (Z.eqb k k'); simpl; auto.
  constructor; auto. intros Hin. apply dict_del_keys_in in Hin. auto.
Qed.

Lemma dict_get_set_neq k k' v d : k' <> k -> dict_get k' (dict_set k v d) = dict_get k' d.
Proof.
  intros Hne. induction d as [|[k0 v0] d IH]; simpl.
  - apply Z.eqb_neq in Hne. now rewrite Hne.
  - destruct (Z.eqb k k0) eqn:E; simpl.
    + apply Z.eqb_eq in E. subst k0. apply Z.eqb_neq in Hne. now rewrite Hne.
    + now rewrite IH.
Qed.

Lemma dict_get_del_eq k d : NoDup (map fst d) -> dict_get k (dict_del k d) = None.
Proof.
  induction d as [|[k' v'] d IH]; simpl; intros H; auto.
  inversion H; subst. destruct (Z.eqb k k') eqn:E.
  - apply Z.eqb_eq in E. subst. apply dict_get_none_notin. auto.
  - simpl. rewrite E. auto.
Qed.

Lemma dict_get_del_neq k k' d : k' <> k -> dict_get k' (dict_del k d) = dict_get k' d.
Proof.
  intros Hne. induction d as [|[k0 v0] d IH]; simpl; auto.
  destruct (Z.eqb k k0) eqn:E.
  - apply Z.eqb_eq in E. subst k0. apply Z.eqb_neq in Hne. now rewrite Hne.
  - simpl. now rewrite IH.
Qed.

End DictKeys.

Lemma validate_cart_nodup (raw : session_cart) : NoDup (map fst (validate_cart raw)).
Proof.
  unfold validate_cart.
  assert (G : forall acc, NoDup (map fst acc) ->
            NoDup (map fst (fold_left validate_entry raw acc))).
  { induction raw as [|[pid item] raw IH]; simpl; intros acc Hacc; auto.
    apply IH. unfold validate_entry.
    destruct (py_int (match raw_quantity item with Some v => v | None => PInt 0 end)) as [q|];
      destruct (py_decimal (match raw_price item with Some v => v | None => PNone end)) as [p|];
      auto.
    destruct ((q <? 0) || dec_ltb p (dec_of_int 0)); auto.
    apply dict_set_nodup; auto. }
  apply G. constructor.
Qed.

Lemma reachable_nodup (c : cart) : reachable c -> NoDup (map fst c).
Proof.
  induction 1.
  - apply validate_cart_nodup.
  - unfold cart_add in H0.
    destruct (dec_leb _ _); [discriminate|].
    set (c1 := if dict_mem (product_id product) c then c
               else dict_set (product_id product) (Line 0 (product_price product)) c) in *.
    assert (N1 : NoDup (map fst c1)).
    { unfold c1. destruct (dict_mem _ _); auto. apply dict_set_nodup; auto. }
    destruct (dict_get _ c1); [|discriminate]. injection H0 as <-.
    apply dict_set_nodup; auto.
  - unfold cart_remove. destruct (dict_mem pid c); auto. apply dict_del_nodup; auto.
Qed.

Lemma dec_ltb_zero_false (p : dec) :
  dec_ltb p (dec_of_int 0) = false <-> (0 <= dec_val p)%Q.
Proof.
  unfold dec_ltb. rewrite negb_false_iff. apply Qle_bool_iff.
Qed.

Lemma dec_leb_zero_spec (p : dec) :
  dec_leb p (dec_of_int 0) = true <-> (dec_val p <= 0)%Q.
Proof. exact (dec_leb_spec p (dec_of_int 0)). Qed.

Lemma dec_leb_zero_false (p : dec) :
  dec_leb p (dec_of_int 0) = false <-> (0 < dec_val p)%Q.
Proof.
  split; intros H.
  - apply Qnot_le_lt. intros H'. apply dec_leb_zero_spec in H'. congruence.
  - destruct (dec_leb p (dec_of_int 0)) eqn:E; auto.
    apply dec_leb_zero_spec in E. exfalso. apply (Qlt_not_le _ _ H). exact E.
Qed.

Lemma to_session_fold (c acc : cart) :
  NoDup (map fst (acc ++ c)) -> Forall (fun e => line_ok (snd e)) c ->
  fold_left validate_entry (cart_to_session c) acc = acc ++ c.
Proof.
  revert acc. induction c as [|[pid l] c IH]; intros acc Hn Hok.
  - simpl. now rewrite app_nil_r.
  - inversion Hok as [|? ? [Hq Hp] Hok']; subst. simpl.
    assert (Hnot : ~ In pid (map fst acc)).
    { rewrite map_app in Hn. simpl in Hn. apply NoDup_remove_2 in Hn.
      intros H. apply Hn. apply in_or_app. left. exact H. }
    unfold validate_entry. simpl.
    replace (quantity l <? 0) with false by (symmetry; apply Z.ltb_ge; exact Hq).
    destruct l as [q [m e]]. simpl in *.
    replace (dec_ltb (Dec m e) (dec_of_int 0)) with false
      by (symmetry; apply dec_ltb_zero_false; exact Hp).
    simpl. rewrite dict_set_absent by exact Hnot.
    replace (acc ++ (pid, Line q (Dec m e)) :: c) with ((acc ++ [(pid, Line q (Dec m e))]) ++ c)
      by (rewrite <- app_assoc; reflexivity).
    apply IH; [|exact Hok']. rewrite <- app_assoc. exact Hn.
Qed.

(** X1: a cart saved to the session and loaded by the next request is
    the same cart ([save] followed by [Cart.__init__]'s validation). *)
Theorem session_round_trip (c : cart) :
  reachable c -> validate_cart (cart_to_session c) = c.
Proof.
  intros Hr. unfold validate_cart.
  apply (to_session_fold c []); [apply reachable_nodup; exact Hr | apply reachable_ok; exact Hr].
Qed.

Lemma session_round_trip_witness :
  reachable (validate_cart three_tomatoes) /\
  validate_cart (cart_to_session (validate_cart three_tomatoes)) = validate_cart three_tomatoes.
Proof.
  split; [apply reach_load|]. apply session_round_trip. apply reach_load.
Defined.

(** X2: adding a product the cart has no line for appends a line at the
    end with quantity [max(0, quantity)] and the product's current price
    as snapshot, with or without [update_quantity]. *)
Theorem cart_add_new_line (c : cart) (product : Product) (qty : Z) (u : bool) :
  dict_get (product_id product) c = None ->
  (0 < dec_val (product_price product))%Q ->
  cart_add c product qty u
  = Some (c ++ [(product_id product, Line (Z.max 0 qty) (product_price product))]).
Proof.
  intros Hn Hp. unfold cart_add.
  rewrite (proj2 (dec_leb_zero_false _) Hp).
  unfold dict_mem. rewrite Hn.
  rewrite dict_get_set_eq.
  apply dict_get_none_notin in Hn.
  rewrite (dict_set_absent _ _ _ Hn).
  assert (Hq : (if u then Z.max 0 qty else Z.max 0 (quantity (Line 0 (product_price product)) + qty))
               = Z.max 0 qty) by (destruct u; reflexivity).
  rewrite Hq. f_equal. clear Hq.
  induction c as [|[k v] c IH]; simpl.
  - now rewrite Z.eqb_refl.
  - simpl in Hn. destruct (Z.eqb (product_id product) k) eqn:E.
    + apply Z.eqb_eq in E. exfalso. apply Hn. left. auto.
    + f_equal. apply IH. intros H. apply Hn. right. exact H.
Qed.

Lemma cart_add_new_line_witness :
  dict_get (product_id tomato) [] = (None : option line) /\
  (0 < dec_val (product_price tomato))%Q /\
  cart_add [] tomato 4 false = Some [(1, Line 4 (Dec 1000 2))].
Proof.
  split; [reflexivity|]. split; [reflexivity|].
  apply (cart_add_new_line [] tomato 4 false); reflexivity.
Defined.

(** X3: [Cart.add] raises exactly when the product's price is [<= 0];
    otherwise it succeeds, whatever the quantity and the flag. *)
Theorem cart_add_fails_iff_price_not_positive (c : cart) (product : Product) (qty : Z) (u : bool) :
  cart_add c product qty u = None <-> (dec_val (product_price product) <= 0)%Q.
Proof.
  unfold cart_add. destruct (dec_leb (product_price product) (dec_of_int 0)) eqn:E.
  - apply dec_leb_zero_spec in E. split; auto.
  - split; [|intros H; apply dec_leb_zero_spec in H; congruence].
    cbv zeta. destruct (dict_mem (product_id product) c) eqn:M.
    + destruct (dict_get_some_mem _ _ M) as [l Hl]. rewrite Hl. discriminate.
    + rewrite dict_get_set_eq. discriminate.
Qed.

(** X4: [Cart.remove] deletes the product's line and leaves every other
    line as it was. *)
Theorem cart_remove_only_that_line (c : cart) (pid : Z) :
  reachable c ->
  dict_get pid (cart_remove c pid) = None /\
  (forall k, k <> pid -> dict_get k (cart_remove c pid) = dict_get k c).
Proof.
  intros Hr. pose proof (reachable_nodup c Hr) as Hn. unfold cart_remove.
  destruct (dict_mem pid c) eqn:M.
  - split; [apply dict_get_del_eq; exact Hn | intros k Hk; apply dict_get_del_neq; exact Hk].
  - split; [|reflexivity]. unfold dict_mem in M. destruct (dict_get pid c); congruence.
Qed.

Lemma cart_remove_only_that_line_witness :
  reachable (validate_cart three_tomatoes) /\
  dict_get 1 (cart_remove (validate_cart three_tomatoes) 1) = None.
Proof.
  split; [apply reach_load|].
  apply (proj1 (cart_remove_only_that_line _ 1 (reach_load three_tomatoes))).
Defined.

(** ** Sums over the cart *)

Lemma cart_len_shift (c : cart) (a : Z) :
  fold_left (fun acc e => acc + quantity (snd e)) c a = a + cart_len c.
Proof.
  unfold cart_len. revert a. induction c as [|e c IH]; intros a; cbn [fold_left]; [lia|].
  rewrite (IH (a + quantity (snd e))), (IH (0 + quantity (snd e))). lia.
Qed.

Lemma cart_len_cons (e : Z * line) (c : cart) :
  cart_len (e :: c) = quantity (snd e) + cart_len c.
Proof. unfold cart_len at 1. simpl. rewrite cart_len_shift. lia. Qed.

Lemma cart_len_set (k : Z) (v : line) (c : cart) :
  cart_len (dict_set k v c)
  = cart_len c - (match dict_get k c with Some l => quantity l | None => 0 end) + quantity v.
Proof.
  induction c as [|[k' v'] c IH]; simpl.
  - rewrite cart_len_cons. unfold cart_len. simpl. lia.
  - destruct (Z.eqb k k'); rewrite !cart_len_cons; simpl; [lia|]. rewrite IH. lia.
Qed.

Lemma total_shift (c : cart) (a : dec) :
  (dec_val (fold_left (fun acc e => dec_add acc (dec_mul_int (price (snd e)) (quantity (snd e))))
              c a)
   == dec_val a + dec_val (get_total_price c))%Q.
Proof.
  unfold get_total_price. revert a. induction c as [|e c IH]; intros a; cbn [fold_left].
  - rewrite dec_val_of_int_0. ring.
  - rewrite IH, (IH (dec_add (dec_of_int 0) _)), !dec_val_add, dec_val_of_int_0. ring.
Qed.

Lemma total_cons (e : Z * line) (c : cart) :
  (dec_val (get_total_price (e :: c))
   == dec_val (dec_mul_int (price (snd e)) (quantity (snd e))) + dec_val (get_total_price c))%Q.
Proof.
  unfold get_total_price at 1. simpl. rewrite total_shift, dec_val_add, dec_val_of_int_0. ring.
Qed.

Lemma total_set (k : Z) (v : line) (c : cart) :
  (dec_val (get_total_price (dict_set k v c))
   == dec_val (get_total_price c)
      - (match dict_get k c with
         | Some l => dec_val (dec_mul_int (price l) (quantity l)) | None => 0 end)
      + dec_val (dec_mul_int (price v) (quantity v)))%Q.
Proof.
  induction c as [|[k' v'] c IH]; simpl.
  - rewrite total_cons. unfold get_total_price. simpl. rewrite dec_val_of_int_0. ring.
  - destruct (Z.eqb k k'); rewrite !total_cons; simpl; [ring|]. rewrite IH. ring.
Qed.

Lemma load_after_save (c : cart) :
  reachable c -> validate_cart (cart_to_session c) = c.
Proof.
  intros Hr. unfold validate_cart.
  apply (to_session_fold c []); [apply reachable_nodup; exact Hr | apply reachable_ok; exact Hr].
Qed.

Lemma find_product_id (id : Z) (cat : catalog) (p : Product) :
  find_product id cat = Some p -> product_id p = id.
Proof.
  induction cat as [|p' cat IH]; simpl; [discriminate|].
  destruct (Z.eqb (product_id p') id) eqn:E; [|exact IH].
  intros H. injection H as <-. now apply Z.eqb_eq.
Qed.

(** X5: [Cart.add] with a positive price sets the product's line to
    [(q, p0)]: the quantity [q0] (0 for a new line) is replaced by the new
    quantity [q] and the snapshot price [p0] is kept; [len(cart)] changes
    by [q - q0] and [get_total_price()] by [p0 * q - p0 * q0]. *)
Theorem cart_add_len_and_total (c : cart) (product : Product) (qty : Z) (u : bool) :
  (0 < dec_val (product_price product))%Q ->
  let l0 := match dict_get (product_id product) c with
            | Some l => l | None => Line 0 (product_price product) end in
  let q := if u then Z.max 0 qty else Z.max 0 (quantity l0 + qty) in
  exists c', cart_add c product qty u = Some c' /\
    dict_get (product_id product) c' = Some (Line q (price l0)) /\
    cart_len c' = cart_len c - quantity l0 + q /\
    (dec_val (get_total_price c')
     == dec_val (get_total_price c) - dec_val (price l0) * inject_Z (quantity l0)
        + dec_val (price l0) * inject_Z q)%Q.
Proof.
  intros Hp. cbv zeta. unfold cart_add.
  rewrite (proj2 (dec_leb_zero_false _) Hp). cbv zeta.
  unfold dict_mem. destruct (dict_get (product_id product) c) as [l|] eqn:Hg.
  - rewrite Hg. eexists. split; [reflexivity|]. split; [apply dict_get_set_eq|]. split.
    + rewrite cart_len_set, Hg. reflexivity.
    + rewrite total_set, Hg, !dec_val_mul_int. cbn [price quantity]. ring.
  - rewrite dict_get_set_eq. eexists. split; [reflexivity|]. split; [apply dict_get_set_eq|].
    split.
    + rewrite cart_len_set, dict_get_set_eq, cart_len_set, Hg. cbn [price quantity]. lia.
    + rewrite total_set, dict_get_set_eq, total_set, Hg, !dec_val_mul_int.
      cbn [price quantity]. ring.
Qed.

Lemma cart_add_len_and_total_witness :
  (0 < dec_val (product_price tomato))%Q /\
  cart_len [(1, Line 7 (Dec 1000 2))] = 7 + 3 - 3 + 0 /\
  exists c', cart_add (validate_cart three_tomatoes) tomato 4 false = Some c' /\
             dict_get 1 c' = Some (Line 7 (Dec 1000 2)) /\
             cart_len c' = 3 - 3 + 7.
Proof.
  assert (Hp : (0 < dec_val (product_price tomato))%Q) by reflexivity.
  split; [exact Hp|]. split; [reflexivity|].
  destruct (cart_add_len_and_total (validate_cart three_tomatoes) tomato 4 false Hp)
    as [c' [H1 [H3 [H2 _]]]].
  exists c'. split; [exact H1 | split; [exact H3 | exact H2]].
Defined.

(** ** The cart views *)

Lemma cart_add_get (c c' : cart) (product : Product) (qty : Z) (u : bool) :
  cart_add c product qty u = Some c' ->
  let l0 := match dict_get (product_id product) c with
            | Some l => l | None => Line 0 (product_price product) end in
  dict_get (product_id product) c'
    = Some (Line (if u then Z.max 0 qty else Z.max 0 (quantity l0 + qty)) (price l0)) /\
  (forall k, k <> product_id product -> dict_get k c' = dict_get k c).
Proof.
  intros Hadd. cbv zeta. unfold cart_add in Hadd.
  destruct (dec_leb _ _); [discriminate|]. cbv zeta in Hadd.
  unfold dict_mem in Hadd. destruct (dict_get (product_id product) c) as [l|] eqn:Hg.
  - rewrite Hg in Hadd. injection Hadd as <-.
    split; [apply dict_get_set_eq|]. intros k Hk. apply dict_get_set_neq. exact Hk.
  - rewrite dict_get_set_eq in Hadd. injection Hadd as <-.
    split; [apply dict_get_set_eq|]. intros k Hk.
    rewrite !dict_get_set_neq by exact Hk. reflexivity.
Qed.

Lemma cart_data_sum (items : list cart_item) (data : list cart_entry) (a : dec) :
  cart_data items = Some data ->
  List.length data = List.length items /\
  fold_left (fun acc e => dec_add acc (entry_total_price e)) data a
  = fold_left (fun acc it => dec_add acc (item_total_price it)) items a.
Proof.
  revert data a. induction items as [|it items IH]; simpl; intros data a H.
  - injection H as <-. split; reflexivity.
  - destruct (item_product it) as [p|]; [|discriminate].
    destruct (cart_data items) as [rest|] eqn:Hr; [|discriminate].
    injection H as <-. simpl.
    destruct (IH rest (dec_add a (item_total_price it)) eq_refl) as [Hl Hs].
    split; [now rewrite Hl | exact Hs].
Qed.

Lemma cart_data_none (c : cart) (products : catalog) :
  cart_data (cart_iter c products) = None <->
  exists pid l, In (pid, l) c /\ find_product pid products = None.
Proof.
  unfold cart_iter. induction c as [|[pid l] c IH]; cbn [map cart_data fst snd].
  - split; [discriminate | intros [? [? [[] _]]]].
  - destruct (iter_line_fields products pid l) as [Hp _]. rewrite Hp.
    destruct (find_product pid products) as [p|] eqn:Hf.
    + destruct (cart_data (map _ c)) as [rest|] eqn:Hr.
      * split; [discriminate|]. intros [pid' [l' [[E|Hin] Hn]]].
        -- injection E as -> ->. congruence.
        -- assert (Hx : Some rest = None) by (apply IH; eauto). discriminate.
      * split; [|reflexivity]. intros _.
        destruct (proj1 IH eq_refl) as [pid' [l' [Hin Hn]]].
        exists pid', l'. split; [right; exact Hin | exact Hn].
    + split; [|reflexivity]. intros _. exists pid, l. split; [left; reflexivity | exact Hf].
Qed.

(** X6: when the add view answers 200, the product is available and the
    cart the next request loads has a line for it whose quantity lies
    between 1 and the stock, whose price is the old line's snapshot (the
    product's price for a new line), and every other line is unchanged. *)
Theorem cart_add_view_success (raw : session_cart) (products : catalog) (pid : Z)
  (req : add_request) (s' : session_cart) :
  cart_add_view raw products pid req = (200, s') ->
  exists product l,
    find_product pid products = Some product /\ is_available product = true /\
    dict_get pid (validate_cart s') = Some l /\
    1 <= quantity l <= stock_quantity product /\
    price l = match dict_get pid (validate_cart raw) with
              | Some l0 => price l0 | None => product_price product end /\
    (forall k, k <> pid -> dict_get k (validate_cart s') = dict_get k (validate_cart raw)).
Proof.
  intros H. unfold cart_add_view in H.
  destruct (find_product pid products) as [product|] eqn:Hf; [|discriminate].
  pose proof (find_product_id _ _ _ Hf) as Hid.
  unfold validate_add_request in H.
  destruct (match req_quantity req with Some q => q | None => 1 end <? 1) eqn:H1; [discriminate|].
  destruct (is_available product) eqn:Ha; [|discriminate]. simpl in H.
  set (qty := match req_quantity req with Some q => q | None => 1 end) in *.
  set (ov := match req_override req with Some b => b | None => false end) in *.
  destruct (stock_quantity product <? qty) eqn:Hs; [discriminate|].
  set (c := validate_cart raw) in *.
  set (cur := match dict_get (product_id product) c with Some l => quantity l | None => 0 end) in *.
  destruct (stock_quantity product <? (if ov then qty else cur + qty)) eqn:Hn; [discriminate|].
  destruct (cart_add c product qty ov) as [c'|] eqn:Hadd; [|discriminate].
  injection H as <-.
  rewrite load_after_save by (eapply reach_add; [apply reach_load | exact Hadd]).
  destruct (cart_add_get _ _ _ _ _ Hadd) as [Hget Hother].
  apply Z.ltb_ge in H1. apply Z.ltb_ge in Hs. apply Z.ltb_ge in Hn.
  assert (Hcur : 0 <= cur).
  { unfold cur. destruct (dict_get (product_id product) c) as [l|] eqn:Hl; [|lia].
    exact (proj1 (dict_get_Forall line_ok _ _ _ (validate_cart_ok raw) Hl)). }
  rewrite Hid in Hget, Hother.
  eexists product, _. split; [reflexivity|]. split; [exact Ha|].
  split; [exact Hget|]. unfold cur in Hcur, Hn. rewrite Hid in Hcur, Hn.
  split; [|split; [|exact Hother]].
  - cbn [quantity]. destruct (dict_get pid c) as [l|]; destruct ov; cbn [quantity] in *; lia.
  - cbn [price]. destruct (dict_get pid c); reflexivity.
Qed.

Lemma cart_add_view_success_witness :
  cart_add_view three_tomatoes [tomato] 1 (AddRequest (Some 2) None)
  = (200, cart_to_session [(1, Line 5 (Dec 1000 2))]) /\
  exists product l, find_product 1 [tomato] = Some product /\
    dict_get 1 (validate_cart (cart_to_session [(1, Line 5 (Dec 1000 2))])) = Some l /\
    1 <= quantity l <= stock_quantity product.
Proof.
  assert (H : cart_add_view three_tomatoes [tomato] 1 (AddRequest (Some 2) None)
              = (200, cart_to_session [(1, Line 5 (Dec 1000 2))])) by reflexivity.
  split; [exact H|].
  destruct (cart_add_view_success _ _ _ _ _ H) as [product [l [H1 [_ [H3 [H4 _]]]]]].
  exists product, l. split; [exact H1|]. split; [exact H3 | exact H4].
Defined.

Lemma cart_data_entries (c : cart) (products : catalog) (data : list cart_entry) :
  Forall (fun e => line_ok (snd e)) c ->
  cart_data (cart_iter c products) = Some data ->
  map (fun e => (entry_product_id e, entry_quantity e, entry_price e)) data
  = map (fun e => (fst e, quantity (snd e), price (snd e))) c /\
  Forall (fun e => dec_val (entry_total_price e)
                   == dec_val (entry_price e) * inject_Z (entry_quantity e))%Q data.
Proof.
  unfold cart_iter. revert data.
  induction c as [|[pid l] c IH]; intros data Hc H; cbn [map cart_data fst snd] in H.
  - injection H as <-. split; [reflexivity | constructor].
  - inversion Hc as [|? ? Hl Hc']; subst.
    destruct (iter_line_fields products pid l) as [Hp [Hq Hpr]].
    rewrite Hp in H.
    destruct (find_product pid products) as [p|] eqn:Hf; [|discriminate].
    destruct (cart_data (map _ c)) as [rest|] eqn:Hr; [|discriminate].
    injection H as <-.
    destruct (IH rest Hc' eq_refl) as [Hm Ht].
    split.
    + cbn [map entry_product_id entry_quantity entry_price fst snd].
      rewrite Hm, Hq, Hpr, (find_product_id _ _ _ Hf). reflexivity.
    + constructor; [|exact Ht]. cbn [entry_total_price entry_price entry_quantity].
      rewrite Hq, Hpr, iter_line_total by exact Hl. apply dec_val_mul_int.
Qed.

(** X7: when the remove view answers 200, the cart the next request
    loads no longer has the product and keeps every other line; the body
    lists, in cart order, one entry per remaining line with that line's
    product id, quantity and price, each entry's [total_price] is its
    price times its quantity, and the body's [total_price] equals the sum
    of the listed line totals. *)
Theorem cart_remove_view_success (raw : session_cart) (products : catalog) (pid : Z)
  (s' : session_cart) (data : list cart_entry) (tot : dec) :
  cart_remove_view raw products pid = (200, s', Some (data, tot)) ->
  dict_get pid (validate_cart s') = None /\
  (forall k, k <> pid -> dict_get k (validate_cart s') = dict_get k (validate_cart raw)) /\
  map (fun e => (entry_product_id e, entry_quantity e, entry_price e)) data
  = map (fun e => (fst e, quantity (snd e), price (snd e))) (validate_cart s') /\
  Forall (fun e => dec_val (entry_total_price e)
                   == dec_val (entry_price e) * inject_Z (entry_quantity e))%Q data /\
  (dec_val tot
   == dec_val (fold_left (fun acc e => dec_add acc (entry_total_price e)) data (dec_of_int 0)))%Q.
Proof.
  intros H. unfold cart_remove_view in H.
  destruct (find_product pid products) as [product|] eqn:Hf; [|discriminate].
  pose proof (find_product_id _ _ _ Hf) as Hid. rewrite Hid in H.
  destruct (dict_mem pid (validate_cart raw)) eqn:M; [|discriminate]. simpl in H.
  set (c := validate_cart raw) in *.
  assert (Hr : reachable (cart_remove c pid)) by (apply reach_remove; apply reach_load).
  destruct (cart_data (cart_iter (cart_remove c pid) products)) as [data'|] eqn:Hd;
    [|discriminate].
  injection H as <- <- <-.
  rewrite load_after_save by exact Hr.
  destruct (cart_data_sum _ _ (dec_of_int 0) Hd) as [_ Hs].
  pose proof (reachable_ok _ Hr) as Hok.
  destruct (cart_data_entries _ _ _ Hok Hd) as [Hm Ht].
  assert (Hn : NoDup (map fst c)) by apply validate_cart_nodup.
  unfold cart_remove in Hm, Hs, Hok |- *. rewrite M in Hm, Hs, Hok |- *.
  split; [apply dict_get_del_eq; exact Hn|].
  split; [intros k Hk; apply dict_get_del_neq; exact Hk|].
  split; [exact Hm|]. split; [exact Ht|].
  rewrite Hs. unfold get_total_price, cart_iter.
  apply total_fold; [exact Hok | reflexivity].
Qed.

Lemma cart_remove_view_success_witness :
  cart_remove_view (cart_to_session [(1, Line 3 (Dec 1000 2)); (2, Line 1 (Dec 500 2))])
    [tomato; mkProduct 2 (Dec 500 2) 10 true] 1
  = (200, cart_to_session [(2, Line 1 (Dec 500 2))],
     Some ([CartEntry 2 1 (Dec 500 2) (Dec 500 2)], Dec 500 2)) /\
  dict_get 2 (validate_cart (cart_to_session [(2, Line 1 (Dec 500 2))]))
  = dict_get 2 (validate_cart (cart_to_session [(1, Line 3 (Dec 1000 2));
                                                (2, Line 1 (Dec 500 2))])).
Proof.
  assert (H : cart_remove_view
                (cart_to_session [(1, Line 3 (Dec 1000 2)); (2, Line 1 (Dec 500 2))])
                [tomato; mkProduct 2 (Dec 500 2) 10 true] 1
              = (200, cart_to_session [(2, Line 1 (Dec 500 2))],
                 Some ([CartEntry 2 1 (Dec 500 2) (Dec 500 2)], Dec 500 2)))
    by reflexivity.
  split; [exact H|].
  apply (proj1 (proj2 (cart_remove_view_success _ _ _ _ _ _ H))). discriminate.
Defined.

(** X8: when the detail view answers 200, the body lists one entry per
    cart line and its [total_price] equals the sum of the listed line
    totals. *)
Theorem cart_detail_view_total (raw : session_cart) (products : catalog)
  (data : list cart_entry) (tot : dec) :
  cart_detail_view raw products = (200, Some (data, tot)) ->
  List.length data = List.length (validate_cart raw) /\
  (dec_val tot
   == dec_val (fold_left (fun acc e => dec_add acc (entry_total_price e)) data (dec_of_int 0)))%Q.
Proof.
  intros H. unfold cart_detail_view in H.
  destruct (cart_data (cart_iter (validate_cart raw) products)) as [data'|] eqn:Hd;
    [|discriminate].
  injection H as <- <-.
  destruct (cart_data_sum _ _ (dec_of_int 0) Hd) as [Hl Hs].
  split; [rewrite Hl; unfold cart_iter; apply length_map|].
  rewrite Hs. unfold get_total_price, cart_iter.
  apply total_fold; [apply validate_cart_ok | reflexivity].
Qed.

Lemma cart_detail_view_total_witness :
  cart_detail_view three_tomatoes [tomato]
  = (200, Some ([CartEntry 1 3 (Dec 1000 2) (Dec 3000 2)],
                dec_add (dec_of_int 0) (Dec 3000 2))) /\
  List.length [CartEntry 1 3 (Dec 1000 2) (Dec 3000 2)] = List.length (validate_cart three_tomatoes).
Proof.
  assert (H : cart_detail_view three_tomatoes [tomato]
              = (200, Some ([CartEntry 1 3 (Dec 1000 2) (Dec 3000 2)],
                            dec_add (dec_of_int 0) (Dec 3000 2)))) by reflexivity.
  split; [exact H|]. exact (proj1 (cart_detail_view_total _ _ _ _ H)).
Defined.

(** X9: the detail view fails with 500 exactly when some cart line's
    product is no longer in the product table; otherwise it answers 200. *)
Theorem cart_detail_view_fails_iff_product_gone (raw : session_cart) (products : catalog) :
  (fst (cart_detail_view raw products) = 500 <->
   exists pid l, In (pid, l) (validate_cart raw) /\ find_product pid products = None) /\
  (fst (cart_detail_view raw products) = 500 \/ fst (cart_detail_view raw products) = 200).
Proof.
  rewrite <- cart_data_none. unfold cart_detail_view.
  destruct (cart_data (cart_iter (validate_cart raw) products)); simpl.
  - split; [split; discriminate | right; reflexivity].
  - split; [split; reflexivity | left; reflexivity].
Qed.

(** ** Order creation *)

Lemma build_items_map (oid : Z) (products : catalog) (c : cart) (its : list OrderItem) :
  build_order_items oid (cart_iter c products) = Some its ->
  its = map (fun e => mkOrderItem oid (fst e) (quantity (snd e)) (price (snd e))) c.
Proof.
  unfold cart_iter. revert its.
  induction c as [|[pid l] c IH]; intros its H; cbn [map build_order_items fst snd] in *.
  - injection H as <-. reflexivity.
  - destruct (iter_line_fields products pid l) as [Hp [Hq Hpr]].
    rewrite Hp in H.
    destruct (find_product pid products) as [p|] eqn:Hf; [|discriminate].
    destruct (build_order_items oid _) as [rest|] eqn:Hr; [|discriminate].
    injection H as <-. rewrite Hq, Hpr, (find_product_id _ _ _ Hf), (IH rest eq_refl).
    reflexivity.
Qed.

Lemma order_create_201 (raw : session_cart) (products : catalog) (user : Z)
  (data : order_request) (d d' : db) (s' : session_cart) :
  order_create_view raw products user data d = (201, d', s') ->
  0 < cart_len (validate_cart raw) /\ order_request_valid data = true /\ s' = [] /\
  exists its, build_order_items (next_order_id d) (cart_iter (validate_cart raw) products)
              = Some its /\
    d' = mkDb (orders d ++ [mkOrder (next_order_id d) user
                              (match req_is_paid data with Some b => b | None => false end)
                              (Dec 0 2)
                              (match req_status data with Some s => s | None => "pending"%string end)])
              (order_items d ++ its) (payments d) (next_order_id d + 1).
Proof.
  unfold order_create_view. intros H.
  destruct (cart_len (validate_cart raw) <? 0) eqn:H1; [discriminate|].
  destruct (cart_len (validate_cart raw) =? 0) eqn:H2; [discriminate|].
  destruct (order_request_valid data) eqn:H3; [|discriminate]. simpl in H.
  destruct (build_order_items _ _) as [its|] eqn:Hb; [|discriminate].
  injection H as <- <-.
  apply Z.ltb_ge in H1. apply Z.eqb_neq in H2.
  split; [lia|]. split; [reflexivity|]. split; [reflexivity|].
  exists its. split; reflexivity.
Qed.

(** X10: a successful order creation empties the cart, so repeating the
    request with the session it leaves is answered 400 and changes
    nothing, whatever the products, user, body and database then. *)
Theorem order_create_not_repeatable (raw : session_cart) (products : catalog) (user : Z)
  (data : order_request) (d d' : db) (s' : session_cart) :
  order_create_view raw products user data d = (201, d', s') ->
  forall products2 user2 data2 d2,
    order_create_view s' products2 user2 data2 d2 = (400, d2, s').
Proof.
  intros H. destruct (order_create_201 _ _ _ _ _ _ _ H) as [_ [_ [-> _]]].
  intros. reflexivity.
Qed.

Lemma order_create_not_repeatable_witness :
  order_create_view [] [tomato] 7 empty_body empty_db = (400, empty_db, []).
Proof.
  assert (H : order_create_view three_tomatoes [tomato] 7 empty_body empty_db
              = (201, mkDb [mkOrder 100 7 false (Dec 0 2) "pending"%string]
                           [mkOrderItem 100 1 3 (Dec 1000 2)] [] 101, [])) by reflexivity.
  exact (order_create_not_repeatable _ _ _ _ _ _ _ H [tomato] 7 empty_body empty_db).
Defined.

(** X11: on 201 the database gains exactly the new order with id
    [next_order_id], the request's [is_paid] and [status] (defaults
    [False] and ['pending']) and total 0.00, followed by one order item
    per cart line, in cart order, carrying the line's product id,
    quantity and snapshot price; the id counter moves on by one, the
    payments are untouched and the session cart is emptied. *)
Theorem order_create_success_effect (raw : session_cart) (products : catalog) (user : Z)
  (data : order_request) (d d' : db) (s' : session_cart) :
  order_create_view raw products user data d = (201, d', s') ->
  s' = [] /\
  d' = mkDb (orders d ++ [mkOrder (next_order_id d) user
                            (match req_is_paid data with Some b => b | None => false end)
                            (Dec 0 2)
                            (match req_status data with Some s => s | None => "pending"%string end)])
            (order_items d ++
             map (fun e => mkOrderItem (next_order_id d) (fst e) (quantity (snd e)) (price (snd e)))
                 (validate_cart raw))
            (payments d) (next_order_id d + 1).
Proof.
  intros H. destruct (order_create_201 _ _ _ _ _ _ _ H) as [_ [_ [Hs [its [Hb Hd]]]]].
  split; [exact Hs|]. rewrite Hd, (build_items_map _ _ _ _ Hb). reflexivity.
Qed.

Lemma order_create_success_effect_witness :
  order_create_view three_tomatoes [tomato] 7 (OrderRequest (Some "processing"%string) None)
    empty_db
  = (201, mkDb [mkOrder 100 7 false (Dec 0 2) "processing"%string]
               [mkOrderItem 100 1 3 (Dec 1000 2)] [] 101, []) /\
  [] = @nil (Z * raw_item).
Proof.
  assert (H : order_create_view three_tomatoes [tomato] 7
                (OrderRequest (Some "processing"%string) None) empty_db
              = (201, mkDb [mkOrder 100 7 false (Dec 0 2) "processing"%string]
                           [mkOrderItem 100 1 3 (Dec 1000 2)] [] 101, [])) by reflexivity.
  split; [exact H|]. exact (proj1 (order_create_success_effect _ _ _ _ _ _ _ H)).
Defined.

Lemma dec_val_mul (a b : dec) : (dec_val (dec_mul a b) == dec_val a * dec_val b)%Q.
Proof.
  destruct a as [m1 e1], b as [m2 e2].
  unfold dec_mul, dec_val, Qeq, Qmult; simpl.
  rewrite !Pos2Z.inj_mul, !pow10_to_pos, pow10_add. ring.
Qed.

Lemma dec_val_of_int (z : Z) : (dec_val (dec_of_int z) == inject_Z z)%Q.
Proof. unfold dec_val, dec_of_int, inject_Z, Qeq; simpl. ring. Qed.

Lemma orderitem_fold_map (oid : Z) (c : cart) (a1 a2 : dec) :
  (dec_val a1 == dec_val a2)%Q ->
  (dec_val (fold_left (fun acc it => dec_add acc (orderitem_get_total it))
              (map (fun e => mkOrderItem oid (fst e) (quantity (snd e)) (price (snd e))) c) a1)
   == dec_val (fold_left (fun acc e => dec_add acc (dec_mul_int (price (snd e)) (quantity (snd e))))
                 c a2))%Q.
Proof.
  revert a1 a2. induction c as [|[pid l] c IH]; simpl; intros a1 a2 Ha; [exact Ha|].
  apply IH. rewrite !dec_val_add, Ha, dec_val_mul_int.
  unfold orderitem_get_total. cbn [oi_quantity oi_price].
  rewrite dec_val_mul, dec_val_of_int. ring.
Qed.

Lemma filter_all_false {A : Type} (f : A -> bool) (l : list A) :
  Forall (fun x => f x = false) l -> filter f l = [].
Proof. induction 1 as [|x l Hx _ IH]; simpl; [reflexivity|]. now rewrite Hx. Qed.

Lemma filter_all_true {A : Type} (f : A -> bool) (l : list A) :
  Forall (fun x => f x = true) l -> filter f l = l.
Proof. induction 1 as [|x l Hx _ IH]; simpl; [reflexivity|]. now rewrite Hx, IH. Qed.

(** X12: when no stored order item already points at the new order id,
    [Order.get_total_price()] of the order created with 201 equals the
    cart's [get_total_price()] at checkout, although the stored
    [total_price] field stays 0.00. *)
Theorem order_items_total_matches_cart (raw : session_cart) (products : catalog) (user : Z)
  (data : order_request) (d d' : db) (s' : session_cart) :
  Forall (fun it => oi_order it <> next_order_id d) (order_items d) ->
  order_create_view raw products user data d = (201, d', s') ->
  (dec_val (order_get_total_price d' (next_order_id d))
   == dec_val (get_total_price (validate_cart raw)))%Q.
Proof.
  intros Hfresh H.
  destruct (order_create_201 _ _ _ _ _ _ _ H) as [_ [_ [_ [its [Hb Hd]]]]].
  rewrite (build_items_map _ _ _ _ Hb) in Hd. subst d'. unfold order_get_total_price. cbn [order_items].
  rewrite filter_app.
  rewrite filter_all_false
    by (eapply Forall_impl; [|exact Hfresh]; intros it Hit; apply Z.eqb_neq; exact Hit).
  rewrite filter_all_true
    by (apply Forall_forall; intros it Hin; apply in_map_iff in Hin;
        destruct Hin as [e [<- _]]; apply Z.eqb_refl).
  simpl app. unfold get_total_price. apply orderitem_fold_map. reflexivity.
Qed.

Lemma order_items_total_matches_cart_witness :
  Forall (fun it => oi_order it <> next_order_id empty_db) (order_items empty_db) /\
  (dec_val (order_get_total_price
              (mkDb [mkOrder 100 7 false (Dec 0 2) "pending"%string]
                    [mkOrderItem 100 1 3 (Dec 1000 2)] [] 101) 100)
   == dec_val (get_total_price (validate_cart three_tomatoes)))%Q.
Proof.
  assert (Hf : Forall (fun it => oi_order it <> next_order_id empty_db) (order_items empty_db))
    by constructor.
  split; [exact Hf|].
  apply (order_items_total_matches_cart three_tomatoes [tomato] 7 empty_body empty_db _ [] Hf).
  reflexivity.
Defined.

(** ** The webhook *)

Lemma map_update_self {A : Type} (key : A -> Z) (x : A) (l : list A) :
  NoDup (map key l) -> In x l ->
  map (fun y => if Z.eqb (key y) (key x) then x else y) l = l.
Proof.
  induction l as [|y l IH]; simpl; intros Hn Hin; [contradiction|].
  inversion Hn as [|? ? Hy Hn']; subst.
  destruct Hin as [->|Hin].
  - rewrite Z.eqb_refl. f_equal.
    rewrite <- (map_id l) at 2. apply map_ext_in. intros z Hz.
    destruct (Z.eqb (key z) (key x)) eqn:E; [|reflexivity].
    apply Z.eqb_eq in E. exfalso. apply Hy. rewrite <- E. apply in_map. exact Hz.
  - rewrite (IH Hn' Hin).
    destruct (Z.eqb (key y) (key x)) eqn:E; [|reflexivity].
    apply Z.eqb_eq in E. exfalso. apply Hy. rewrite E. apply in_map. exact Hin.
Qed.

Lemma find_order_in (id : Z) (os : list Order) (o : Order) :
  find_order id os = Some o -> In o os.
Proof.
  induction os as [|o' os IH]; simpl; [discriminate|].
  destruct (Z.eqb (order_id o') id); [intros H; injection H as <-; left; reflexivity|].
  intros H. right. exact (IH H).
Qed.

Lemma filter_singleton_in {A : Type} (f : A -> bool) (l : list A) (x : A) :
  filter f l = [x] -> In x l.
Proof.
  intros H. assert (Hin : In x (filter f l)) by (rewrite H; left; reflexivity).
  apply filter_In in Hin. exact (proj1 Hin).
Qed.

Lemma webhook_db_same (d : db) (verified : option event) :
  NoDup (map order_id (orders d)) -> NoDup (map pay_order (payments d)) ->
  snd (stripe_webhook d verified) = d.
Proof.
  intros Ho Hp. unfold stripe_webhook.
  destruct verified as [ev|]; [|reflexivity].
  destruct (String.eqb (ev_type ev) "checkout.session.completed"); [|reflexivity].
  unfold handle_successful_payment.
  destruct (filter _ (payments d)) as [|p [|p' rest]] eqn:Hf; try reflexivity.
  destruct (find_order (pay_order p) (orders d)) as [o|] eqn:Ho'; [|reflexivity].
  simpl snd. unfold save_payment, save_order. cbn.
  rewrite (map_update_self order_id o (orders d) Ho (find_order_in _ _ _ Ho')).
  rewrite (map_update_self pay_order p (payments d) Hp (filter_singleton_in _ _ _ Hf)).
  destruct d; reflexivity.
Qed.

(** X13: when order ids and the payments' one-to-one order column are
    unique, no call of the webhook, whatever the event, adds, deletes or
    alters an order's id, user, [is_paid], [total_price] or [status], an
    order item, or a payment's order, session id, amount or
    [is_successful]: a completion event for a known session saves the
    order and the payment with these fields as they were, since the
    handler only sets [paid] and [status], which are not model fields.
    (The [order.save()] still refreshes the [auto_now] column
    [updated_at], which is not among these fields.) *)
Theorem webhook_keeps_order_and_payment_fields (d : db) (verified : option event) :
  NoDup (map order_id (orders d)) -> NoDup (map pay_order (payments d)) ->
  orders (snd (stripe_webhook d verified)) = orders d /\
  order_items (snd (stripe_webhook d verified)) = order_items d /\
  payments (snd (stripe_webhook d verified)) = payments d.
Proof.
  intros Ho Hp. rewrite (webhook_db_same d verified Ho Hp). auto.
Qed.

Lemma webhook_keeps_order_and_payment_fields_witness :
  NoDup (map order_id (orders pending_db)) /\ NoDup (map pay_order (payments pending_db)) /\
  orders (snd (stripe_webhook pending_db (Some completed_event))) = orders pending_db.
Proof.
  assert (Ho : NoDup (map order_id (orders pending_db)))
    by (simpl; constructor; [intros []| constructor]).
  assert (Hp : NoDup (map pay_order (payments pending_db)))
    by (simpl; constructor; [intros []| constructor]).
  split; [exact Ho|]. split; [exact Hp|].
  exact (proj1 (webhook_keeps_order_and_payment_fields pending_db (Some completed_event) Ho Hp)).
Defined.

(** ** Failed requests *)

(** X14: every answer of the add view other than 200 (404 unknown
    product, 400 invalid body or stock exceeded, 500 non-positive price)
    leaves the session payload exactly as the request found it. *)
Theorem cart_add_view_failure_keeps_session (raw : session_cart) (products : catalog)
  (pid : Z) (req : add_request) (st : Z) (s' : session_cart) :
  cart_add_view raw products pid req = (st, s') -> st <> 200 -> s' = raw.
Proof.
  unfold cart_add_view. intros H Hst.
  destruct (find_product pid products) as [product|]; [|congruence].
  destruct (validate_add_request product req) as [[qty ov]|]; [|congruence].
  destruct (_ <? _); [congruence|].
  destruct (cart_add _ _ _ _); congruence.
Qed.

Lemma cart_add_view_failure_keeps_session_witness :
  cart_add_view three_tomatoes [tomato] 2 (AddRequest None None) = (404, three_tomatoes) /\
  three_tomatoes = three_tomatoes.
Proof.
  assert (H : cart_add_view three_tomatoes [tomato] 2 (AddRequest None None)
              = (404, three_tomatoes)) by reflexivity.
  split; [exact H|].
  apply (cart_add_view_failure_keeps_session _ _ _ _ 404 _ H). discriminate.
Defined.

(** X15: every answer of the remove view other than 200 (404 for an
    unknown product or one not in the cart, 500 when a remaining line's
    product is gone) leaves the session payload as it was and sends no
    cart body. *)
Theorem cart_remove_view_failure_keeps_session (raw : session_cart) (products : catalog)
  (pid : Z) (st : Z) (s' : session_cart) (body : option (list cart_entry * dec)) :
  cart_remove_view raw products pid = (st, s', body) -> st <> 200 -> s' = raw /\ body = None.
Proof.
  unfold cart_remove_view. intros H Hst.
  destruct (find_product pid products) as [product|]; [|injection H; auto].
  destruct (negb _); [injection H; auto|].
  destruct (cart_data _); [congruence|]. injection H; auto.
Qed.

Lemma cart_remove_view_failure_keeps_session_witness :
  cart_remove_view (cart_to_session [(2, Line 1 (Dec 500 2))]) [tomato] 1
  = (404, cart_to_session [(2, Line 1 (Dec 500 2))], None) /\
  cart_to_session [(2, Line 1 (Dec 500 2))] = cart_to_session [(2, Line 1 (Dec 500 2))].
Proof.
  assert (H : cart_remove_view (cart_to_session [(2, Line 1 (Dec 500 2))]) [tomato] 1
              = (404, cart_to_session [(2, Line 1 (Dec 500 2))], None)) by reflexivity.
  split; [exact H|].
  exact (proj1 (cart_remove_view_failure_keeps_session _ _ _ 404 _ _ H ltac:(discriminate))).
Defined.

(** X16: an order creation answered with anything but 201 keeps the
    session cart, inserts no order item and no payment, and inserts at
    most the order row itself (with the next id). *)
Theorem order_create_failure_effect (raw : session_cart) (products : catalog) (user : Z)
  (data : order_request) (d d' : db) (st : Z) (s' : session_cart) :
  order_create_view raw products user data d = (st, d', s') -> st <> 201 ->
  s' = raw /\ order_items d' = order_items d /\ payments d' = payments d /\
  (d' = d \/ exists o, order_id o = next_order_id d /\
                 d' = mkDb (orders d ++ [o]) (order_items d) (payments d) (next_order_id d + 1)).
Proof.
  unfold order_create_view. intros H Hst.
  destruct (_ <? 0); [injection H as _ <- <-; auto|].
  destruct (_ =? 0); [injection H as _ <- <-; auto|].
  destruct (negb _); [injection H as _ <- <-; auto|].
  destruct (build_order_items _ _); [congruence|].
  injection H as _ <- <-. simpl. split; [reflexivity|]. split; [reflexivity|].
  split; [reflexivity|]. right. eexists. split; [|reflexivity]. reflexivity.
Qed.

Lemma order_create_failure_effect_witness :
  order_create_view three_tomatoes [] 7 empty_body empty_db
  = (500, mkDb [mkOrder 100 7 false (Dec 0 2) "pending"%string] [] [] 101, three_tomatoes) /\
  order_items (mkDb [mkOrder 100 7 false (Dec 0 2) "pending"%string] [] [] 101)
  = order_items empty_db.
Proof.
  assert (H : order_create_view three_tomatoes [] 7 empty_body empty_db
              = (500, mkDb [mkOrder 100 7 false (Dec 0 2) "pending"%string] [] [] 101,
                 three_tomatoes)) by reflexivity.
  split; [exact H|].
  exact (proj1 (proj2 (order_create_failure_effect _ _ _ _ _ _ 500 _ H ltac:(discriminate)))).
Defined.

(** X17: [create_checkout_session] never writes to the database and never
    answers 201: an order not of the user is 404, every other request
    ends in 500. *)
Theorem checkout_session_never_writes (d : db) (user oid : Z) (stripe_session : option string) :
  snd (create_checkout_session d user oid stripe_session) = d /\
  (fst (create_checkout_session d user oid stripe_session) = 404 \/
   fst (create_checkout_session d user oid stripe_session) = 500).
Proof.
  unfold create_checkout_session.
  destruct (find_user_order oid user (orders d)); simpl; auto.
Qed.

(** ** Loading the session *)

Lemma validate_entry_get_other (acc : cart) (k pid : Z) (item : raw_item) :
  pid <> k -> dict_get pid (validate_entry acc (k, item)) = dict_get pid acc.
Proof.
  intros Hne. unfold validate_entry.
  destruct (py_int _); [|reflexivity]. destruct (py_decimal _); [|reflexivity].
  destruct (_ || _); [reflexivity|]. apply dict_get_set_neq. exact Hne.
Qed.

Lemma validate_entry_get_self (acc : cart) (k : Z) (item : raw_item) :
  dict_get k acc = None ->
  dict_get k (validate_entry acc (k, item)) = dict_get k (validate_entry [] (k, item)).
Proof.
  intros Hk. unfold validate_entry.
  destruct (py_int _); [|exact Hk]. destruct (py_decimal _); [|exact Hk].
  destruct (_ || _); [exact Hk|]. rewrite !dict_get_set_eq. reflexivity.
Qed.

Lemma validate_fold_get (raw : session_cart) (acc : cart) (pid : Z) :
  NoDup (map fst raw) ->
  (forall k, In k (map fst raw) -> dict_get k acc = None) ->
  dict_get pid (fold_left validate_entry raw acc)
  = match dict_get pid raw with
    | Some item => dict_get pid (validate_entry [] (pid, item))
    | None => dict_get pid acc
    end.
Proof.
  revert acc. induction raw as [|[k item] raw IH]; cbn [fold_left map fst dict_get];
    intros acc Hn Hd; [reflexivity|].
  inversion Hn as [|? ? Hk Hn']; subst.
  rewrite IH; [| exact Hn' |].
  - destruct (Z.eqb pid k) eqn:E.
    + apply Z.eqb_eq in E. subst pid.
      rewrite (proj2 (dict_get_none_notin k raw) Hk).
      apply validate_entry_get_self. apply Hd. left. reflexivity.
    + apply Z.eqb_neq in E. destruct (dict_get pid raw); [reflexivity|].
      apply validate_entry_get_other. exact E.
  - intros k' Hk'. assert (Hne : k' <> k) by (intros ->; contradiction).
    rewrite validate_entry_get_other by exact Hne. apply Hd. right. exact Hk'.
Qed.

Lemma dec_ltb_zero_false_iff (p : dec) :
  dec_ltb p (dec_of_int 0) = false <-> (0 <= dec_val p)%Q.
Proof.
  unfold dec_ltb. rewrite negb_false_iff. apply Qle_bool_iff.
Qed.

(** X18: for a session payload with distinct keys, [_validate_cart]
    keeps a product's entry exactly when [int] of its quantity (0 when
    absent) succeeds, its price (absent: [None]) is an [int] or a finite
    decimal literal, and neither is negative, and then stores the
    converted values; a price [Decimal] rejects, or ['NaN'], whose
    comparison with 0 raises, drops the entry.  Whether an entry is kept
    does not depend on the other entries.  (Prices are the values of
    [pyval]: [Infinity] and exponent literals are not represented.) *)
Theorem validate_cart_entry (raw : session_cart) (pid : Z) (l : line) :
  NoDup (map fst raw) ->
  (dict_get pid (validate_cart raw) = Some l <->
   exists item, dict_get pid raw = Some item /\
     py_int (match raw_quantity item with Some v => v | None => PInt 0 end) = Some (quantity l) /\
     py_decimal (match raw_price item with Some v => v | None => PNone end) = Some (price l) /\
     0 <= quantity l /\ (0 <= dec_val (price l))%Q).
Proof.
  intros Hn. unfold validate_cart.
  rewrite (validate_fold_get raw [] pid Hn) by reflexivity.
  destruct (dict_get pid raw) as [item|].
  - unfold validate_entry.
    split.
    + destruct (py_int _) as [q|] eqn:Eq; [|discriminate].
      destruct (py_decimal _) as [p|] eqn:Ep; [|discriminate].
      destruct ((q <? 0) || dec_ltb p (dec_of_int 0)) eqn:Hb; [discriminate|].
      rewrite dict_get_set_eq. intros [= <-].
      apply orb_false_iff in Hb. destruct Hb as [Hq Hp].
      apply Z.ltb_ge in Hq. apply dec_ltb_zero_false_iff in Hp.
      exists item. simpl. auto.
    + intros [it [[= <-] [Eq [Ep [Hq Hp]]]]].
      rewrite Eq, Ep.
      replace (quantity l <? 0) with false by (symmetry; apply Z.ltb_ge; exact Hq).
      replace (dec_ltb (price l) (dec_of_int 0)) with false
        by (symmetry; apply dec_ltb_zero_false_iff; exact Hp).
      cbn [orb]. rewrite dict_get_set_eq. destruct l. reflexivity.
  - split; [discriminate | intros [? [[=] _]]].
Qed.

Lemma validate_cart_entry_witness :
  NoDup (map fst three_tomatoes) /\
  (dict_get 1 (validate_cart three_tomatoes) = Some (Line 3 (Dec 1000 2)) <->
   exists item, dict_get 1 three_tomatoes = Some item /\
     py_int (match raw_quantity item with Some v => v | None => PInt 0 end) = Some 3 /\
     py_decimal (match raw_price item with Some v => v | None => PNone end) = Some (Dec 1000 2) /\
     0 <= 3 /\ (0 <= dec_val (Dec 1000 2))%Q).
Proof.
  assert (Hn : NoDup (map fst three_tomatoes)) by (simpl; constructor; [intros []|constructor]).
  split; [exact Hn|].
  exact (validate_cart_entry three_tomatoes 1 (Line 3 (Dec 1000 2)) Hn).
Defined.

Lemma total_nonneg_fold (c : cart) (a : dec) :
  Forall (fun e => line_ok (snd e)) c -> (0 <= dec_val a)%Q ->
  (0 <= dec_val (fold_left (fun acc e => dec_add acc (dec_mul_int (price (snd e)) (quantity (snd e))))
                   c a))%Q.
Proof.
  revert a. induction c as [|[pid l] c IH]; simpl; intros a Hc Ha; [exact Ha|].
  inversion Hc as [|? ? [Hq Hp] Hc']; subst. apply IH; [exact Hc'|].
  rewrite dec_val_add, dec_val_mul_int.
  assert (Hz : (0 <= inject_Z (quantity l))%Q) by (simpl in Hq; unfold Qle, inject_Z; simpl; lia).
  pose proof (Qplus_le_compat 0 (dec_val a) 0 _ Ha (Qmult_le_0_compat _ _ Hp Hz)) as H.
  rewrite Qplus_0_l in H. exact H.
Qed.

Lemma len_nonneg_fold (c : cart) (a : Z) :
  Forall (fun e => line_ok (snd e)) c -> 0 <= a ->
  0 <= fold_left (fun acc e => acc + quantity (snd e)) c a.
Proof.
  revert a. induction c as [|[pid l] c IH]; simpl; intros a Hc Ha; [exact Ha|].
  inversion Hc as [|? ? [Hq Hp] Hc']; subst. apply IH; [exact Hc'|]. simpl in Hq. lia.
Qed.

(** X19: for every cart a request can hold, [len(cart)] and
    [get_total_price()] are non-negative, so the [len(cart) < 0] branch of
    the order view never fires. *)
Theorem cart_len_and_total_nonneg (c : cart) :
  reachable c -> 0 <= cart_len c /\ (0 <= dec_val (get_total_price c))%Q.
Proof.
  intros Hr. pose proof (reachable_ok c Hr) as Hc. split.
  - unfold cart_len. apply len_nonneg_fold; [exact Hc | lia].
  - unfold get_total_price. apply total_nonneg_fold; [exact Hc | discriminate].
Qed.

Lemma cart_len_and_total_nonneg_witness :
  0 <= cart_len (validate_cart three_tomatoes) /\
  (0 <= dec_val (get_total_price (validate_cart three_tomatoes)))%Q.
Proof. apply cart_len_and_total_nonneg. apply reach_load. Defined.



(** ** Zero quantities *)




